(** * The HTTP/3 client of quic-go: [http3/client.go]

    A shallow embedding of the client-side request/response engine
    ([RoundTrip], [doRequest], [dial], [maxHeaderBytes], [Close]) and of the
    handling of server-initiated unidirectional streams
    ([handleUnidirectionalStreams]), with the properties the specification
    states about them.

    Conventions.
    - Go strings are byte strings: [string].  Go integers are [Z]; the one
      conversion that can wrap, [uint64(x)], is written out.
    - An [error] value that may be [nil] is an [option error]; a nil
      interface or function value is [None].
    - A [map[string][]string] is a [gmap string (list string)].
    - The transport connection, the streams, the frame codec, the request
      writer and the QPACK decoder are collaborators.  What they answer is
      given by records of answers; what the client asks of them is recorded,
      in program order, as a list of [event]s.  A goroutine is recorded
      where it is started; what it does is a computation of its own.
    - Logging is left out. *)

From Stdlib Require Import ZArith Ascii String List Lia DecimalString.
From stdpp Require Import base option list strings gmap fin_maps.

Open Scope string_scope.
Open Scope Z_scope.

(** ** Go standard library: [strconv] *)

Module strconv.

Inductive NumError : Type := ErrSyntax | ErrRange.

Definition isDigit (c : ascii) : bool :=
  ((48 <=? Z.of_nat (nat_of_ascii c)) && (Z.of_nat (nat_of_ascii c) <=? 57))%Z.

Definition digitVal (c : ascii) : Z := Z.of_nat (nat_of_ascii c) - 48.

Definition maxUint64 : Z := 2 ^ 64 - 1.

(** The digit loop of [ParseUint(s, 10, 64)]: [n] is the value read so far. *)
Fixpoint parseUintLoop (n : Z) (s : string) : Z + NumError :=
  match s with
  | EmptyString => inl n
  | String c rest =>
      if isDigit c then
        if n >=? maxUint64 / 10 + 1 then inr ErrRange
        else
          let n1 := n * 10 + digitVal c in
          if n1 >? maxUint64 then inr ErrRange else parseUintLoop n1 rest
      else inr ErrSyntax
  end.

Definition ParseUint (s : string) : Z + NumError :=
  match s with
  | EmptyString => inr ErrSyntax
  | _ => parseUintLoop 0 s
  end.

(** [ParseInt(s, 10, 64)]: an optional sign, then [ParseUint]; the result has
    to fit an int64. *)
Definition ParseInt (s : string) : Z + NumError :=
  match s with
  | EmptyString => inr ErrSyntax
  | String c rest =>
      let neg := Ascii.eqb c "-" in
      let digits := if Ascii.eqb c "+" || Ascii.eqb c "-" then rest else s in
      match ParseUint digits with
      | inr e => inr e
      | inl un =>
          if negb neg && (un >=? 2 ^ 63) then inr ErrRange
          else if neg && (un >? 2 ^ 63) then inr ErrRange
          else inl (if neg then - un else un)
      end
  end.

(** [Atoi] is [ParseInt(s, 10, 0)] converted to [int]; [int] has 64 bits on
    the platforms the client is built for. *)
Definition Atoi (s : string) : Z + NumError := ParseInt s.

(** [%d] of a non-negative integer. *)
Definition FormatUint (n : Z) : string :=
  NilZero.string_of_uint (N.to_uint (Z.to_N n)).

End strconv.

(** ** Go standard library: [net/textproto] and [net/http] headers *)

Module textproto.

Definition isUpper (c : ascii) : bool :=
  ((65 <=? Z.of_nat (nat_of_ascii c)) && (Z.of_nat (nat_of_ascii c) <=? 90))%Z.

Definition isLower (c : ascii) : bool :=
  ((97 <=? Z.of_nat (nat_of_ascii c)) && (Z.of_nat (nat_of_ascii c) <=? 122))%Z.

(** The token characters of RFC 7230: letters, digits and
    [! # $ % & ' * + - . ^ _ ` | ~]. *)
Definition validHeaderFieldByte (c : ascii) : bool :=
  isUpper c || isLower c || strconv.isDigit c ||
  existsb (Ascii.eqb c)
    (list_ascii_of_string "!#$%&'*+-.^_`|~").

Definition toUpper (c : ascii) : ascii := ascii_of_nat (nat_of_ascii c - 32).
Definition toLower (c : ascii) : ascii := ascii_of_nat (nat_of_ascii c + 32).

(** Upper case for the first letter and for a letter after a dash, lower case
    for every other letter. [upper] says whether the next byte starts a word. *)
Fixpoint canonicalize (upper : bool) (s : string) : string :=
  match s with
  | EmptyString => EmptyString
  | String c rest =>
      let c' :=
        if upper && isLower c then toUpper c
        else if negb upper && isUpper c then toLower c
        else c in
      String c' (canonicalize (Ascii.eqb c' "-") rest)
  end.

(** A key with a byte that is no token character is returned as it is. *)
Definition CanonicalMIMEHeaderKey (s : string) : string :=
  if forallb validHeaderFieldByte (list_ascii_of_string s)
  then canonicalize true s
  else s.

End textproto.

Module http.

(** [type Header map[string][]string] *)
Abbreviation Header := (gmap string (list string)).

Definition Add (h : Header) (key value : string) : Header :=
  let k := textproto.CanonicalMIMEHeaderKey key in
  <[k := (default [] (h !! k) ++ [value])%list]> h.

Definition Get (h : Header) (key : string) : string :=
  match h !! textproto.CanonicalMIMEHeaderKey key with
  | Some (v :: _) => v
  | _ => ""
  end.

Definition Del (h : Header) (key : string) : Header :=
  delete (textproto.CanonicalMIMEHeaderKey key) h.

Definition MethodGet : string := "GET".
Definition MethodConnect : string := "CONNECT".

End http.

(** ** What [client.go] uses from the rest of the package *)

(** Go errors.  [errHijacked] is the sentinel of the frame codec, compared
    with [==]; every other error is known here by its message only. *)
Inductive error : Type :=
| errHijacked
| errorString (msg : string).

(** [err.Error()].  The text of the sentinel is read by none of the
    properties below. *)
Definition Error (e : error) : string :=
  match e with
  | errHijacked => "hijacked"
  | errorString msg => msg
  end.

Definition isHijacked (e : error) : bool :=
  match e with errHijacked => true | errorString _ => false end.

(** [qpack.HeaderField] *)
Record HeaderField : Type := mkHeaderField { Name : string; Value : string }.

(** The frames the codec hands out.  [client.go] names [headersFrame] and
    [settingsFrame]; the DATA frame is the third known frame of the data
    model. *)
Inductive frame : Type :=
| dataFrame (Length : Z)
| headersFrame (Length : Z)
| settingsFrame (Datagram : bool) (Other : gmap Z Z).

(** [unknownFrameHandlerFunc]: given a frame type, says whether it took the
    stream over. *)
Definition unknownFrameHandlerFunc : Type := Z -> bool * option error.

(** [roundTripperOpts].  The two hijackers are closed over the connection and
    the stream they are called with. *)
Record roundTripperOpts : Type := mkOpts {
  DisableCompression : bool;
  EnableDatagram : bool;
  MaxHeaderBytes : Z;
  AdditionalSettings : gmap Z Z;
  StreamHijacker : option (Z -> bool * option error);
  UniStreamHijacker : option (Z -> bool * option error)
}.

(** [context.Context] of a request: whether [Done()] fires before the
    handshake of the connection completes, and what [Err()] is once it has. *)
Record RequestContext : Type := mkContext {
  doneBeforeHandshake : bool;
  ctxErr : error
}.

(** [http.Request], the fields [client.go] reads. *)
Record Request : Type := mkRequest {
  req_Method : string;
  req_Host : string;
  req_Header : http.Header;
  req_Context : RequestContext
}.

Definition setMethod (req : Request) (m : string) : Request :=
  {| req_Method := m; req_Host := req_Host req;
     req_Header := req_Header req; req_Context := req_Context req |}.

(** What the frame codec finds on a stream at its next read: a frame of a
    type it decodes, a failure, or a frame of a type it does not know,
    together with the protocol error the codec fails with when nobody takes
    the stream over. *)
Inductive frameInput : Type :=
| inputFrame (f : frame)
| inputError (e : error)
| inputUnknown (ft : Z) (protocolError : error).

(** [quic.Stream], as the answers it gives to one request exchange. *)
Record Stream : Type := mkStream {
  str_WriteRequest : Request -> bool -> option error;
  str_frames : frameInput;
  str_ReadFull : Z -> list Byte.byte + error
}.

(** [quic.ReceiveStream], a unidirectional stream opened by the server:
    what reading its leading varint gives, and the frames after it. *)
Record ReceiveStream : Type := mkReceiveStream {
  rstr_streamType : Z + error;
  rstr_frames : frameInput
}.

(** [quic.ConnectionState]. [cs_TLS] stands for the TLS snapshot. *)
Record ConnectionState : Type := mkConnectionState {
  cs_TLS : Z;
  cs_SupportsDatagrams : bool
}.

(** [quic.EarlyConnection], as the answers of the transport: the streams
    [AcceptUniStream] hands out before it fails, the result of
    [OpenStreamSync], the connection state and what [CloseWithError]
    returns. *)
Record EarlyConnection : Type := mkConn {
  conn_AcceptUniStream : list ReceiveStream;
  conn_OpenStreamSync : Stream + error;
  conn_ConnectionState : ConnectionState;
  conn_CloseWithError : Z -> string -> option error
}.

(** The response body: the reader bound to the stream, possibly wrapped in
    a decompressing reader. *)
Inductive Body : Type :=
| responseBody
| gzipReader (inner : Body).

(** [http.Response], the fields [doRequest] fills in.  The zero value of
    [ContentLength] is 0. *)
Record Response : Type := mkResponse {
  res_Status : string;
  res_StatusCode : Z;
  res_Proto : string;
  res_ProtoMajor : Z;
  res_Header : http.Header;
  res_Body : option Body;
  res_ContentLength : Z;
  res_Uncompressed : bool;
  res_TLS : Z
}.

(** [requestError]: an error with its stream error code and its connection
    error code; 0 stands for no code. *)
Record requestError : Type := mkRequestError {
  err : option error;
  streamErr : Z;
  connErr : Z
}.

(** Modelled from the spec: [newStreamError] is declared outside client.go;
    a failure carries a classification, here the stream-scoped code, and no
    failure carries both. *)
Definition newStreamError (code : Z) (e : error) : requestError :=
  {| err := Some e; streamErr := code; connErr := 0 |}.

(** Modelled from the spec: [newConnError] is declared outside client.go;
    the failure carries the connection-scoped code only. *)
Definition newConnError (code : Z) (e : error) : requestError :=
  {| err := Some e; streamErr := 0; connErr := code |}.

(** [requestError{}] *)
Definition noRequestError : requestError :=
  {| err := None; streamErr := 0; connErr := 0 |}.

(** [quic.Config], the fields [client.go] reads or sets. *)
Record Config : Type := mkConfig {
  Versions : list Z;
  MaxIncomingStreams : Z;
  KeepAlive : bool;
  EnableDatagrams : bool
}.

(** [tls.Config], the field [client.go] sets. *)
Record tlsConfig : Type := mkTLSConfig {
  NextProtos : list string
}.

(** [dialFunc]; the context is left out. *)
Definition dialFunc : Type :=
  string -> tlsConfig -> Config -> EarlyConnection + error.

(** The constants and functions of the package and of its imports that
    [client.go] refers to and that are declared elsewhere: the HTTP/3 error
    codes, the stream types, [protocol.VersionTLS], [versionToALPN],
    [authorityAddr], [hostnameFromRequest], [http.StatusText], what
    [DecodeFull] of a new QPACK decoder answers, and the function the
    package variable [dialAddr] is set to. *)
Class Package : Type := {
  errorNoError : Z;
  errorGeneralProtocolError : Z;
  errorInternalError : Z;
  errorStreamCreationError : Z;
  errorFrameUnexpected : Z;
  errorFrameError : Z;
  errorIDError : Z;
  errorSettingsError : Z;
  errorMissingSettings : Z;
  errorRequestCanceled : Z;
  errorRequestIncomplete : Z;
  streamTypeControlStream : Z;
  streamTypePushStream : Z;
  streamTypeQPACKEncoderStream : Z;
  streamTypeQPACKDecoderStream : Z;
  authorityAddr : string -> string -> string;
  hostnameFromRequest : Request -> string;
  StatusText : Z -> string;
  VersionTLS : Z;
  versionToALPN : Z -> string;
  qpackDecodeFull : list Byte.byte -> list HeaderField + error;
  dialAddr : dialFunc
}.

(** [client].  [dialOnce] says whether [sync.Once] has run; [conn] is [None]
    for the nil interface; [decoder] is [DecodeFull] of the decoder.  The
    request writer and the logger are left out. *)
Record client : Type := mkClient {
  tlsConf : tlsConfig;
  config : Config;
  opts : roundTripperOpts;
  dialOnce : bool;
  dialer : option dialFunc;
  handshakeErr : option error;
  decoder : list Byte.byte -> list HeaderField + error;
  hostname : string;
  conn : option EarlyConnection
}.

(** ** What the client asks of its collaborators *)

Inductive goroutine : Type :=
| goSetupConn
| goHandleBidirectionalStreams
| goHandleUnidirectionalStreams
| goCancelWatcher.

Inductive event : Type :=
| EvDial (addr : string)
| EvGo (g : goroutine)
| EvSelectHandshakeOrContext
| EvOpenStreamSync
| EvWriteRequest (method : string) (requestGzip : bool)
| EvParseNextFrame
| EvUnknownFrameHandler (ft : Z)
| EvMake (n : Z)
| EvReadFull (n : Z)
| EvDecodeFull
| EvConnectionState
| EvCloseReqDone
| EvCancelWrite (code : Z)
| EvCancelRead (code : Z)
| EvCloseWithError (code : Z) (reason : string)
| EvReadStreamType.

(** A computation: its result and the events it performed, in order. *)
Definition M (A : Type) : Type := A * list event.

Definition ret {A : Type} (a : A) : M A := (a, []).

Definition bind {A B : Type} (m : M A) (k : A -> M B) : M B :=
  let '(a, t1) := m in
  let '(b, t2) := k a in
  (b, (t1 ++ t2)%list).

Definition emit (e : event) : M unit := (tt, [e]).

Definition when (b : bool) (m : M unit) : M unit := if b then m else ret tt.

Definition result {A : Type} (m : M A) : A := fst m.
Definition trace {A : Type} (m : M A) : list event := snd m.

Declare Scope go_scope.
Delimit Scope go_scope with go.
Notation "x <- m ;; k" := (bind m (fun x => k))
  (at level 100, m at next level, right associativity) : go_scope.
Notation "m ;;; k" := (bind m (fun _ => k))
  (at level 100, right associativity) : go_scope.
Open Scope go_scope.

(** What a Go call does: it returns, or it panics. *)
Inductive outcome (A : Type) : Type :=
| Returns (a : A)
| Panics.
Arguments Returns {A} a.
Arguments Panics {A}.

(** ** The frame codec, as [client.go] calls it *)

(** Modelled from the spec: [parseNextFrame] is declared outside client.go.
    One call reads a frame type.  A known type is decoded and returned.  For
    an unknown type the handler, when there is one, is asked: if it reports
    that it handled the stream the codec returns the sentinel [errHijacked];
    otherwise the codec fails with a protocol error. *)
Definition parseNextFrame (r : frameInput)
    (unknownFrameHandler : option unknownFrameHandlerFunc) : M (frame + error) :=
  emit EvParseNextFrame ;;;
  match r with
  | inputFrame f => ret (inl f)
  | inputError e => ret (inr e)
  | inputUnknown ft protocolError =>
      match unknownFrameHandler with
      | None => ret (inr protocolError)
      | Some handler =>
          emit (EvUnknownFrameHandler ft) ;;;
          if fst (handler ft) then ret (inr errHijacked)
          else ret (inr protocolError)
      end
  end.

(** ** [client.go] *)

Definition MethodGet0RTT : string := "GET_0RTT".

(** [10 * 1 << 20]: [*] and [<<] have the same precedence in Go. *)
Definition defaultMaxResponseHeaderBytes : Z := Z.shiftl (10 * 1) 20.

(** [uint64(x)] of an int64 *)
Definition uint64 (x : Z) : Z := x mod 2 ^ 64.

Definition maxHeaderBytes (c : client) : Z :=
  if MaxHeaderBytes (opts c) <=? 0 then defaultMaxResponseHeaderBytes
  else uint64 (MaxHeaderBytes (opts c)).

Definition emptyResponse (tls : Z) : Response :=
  {| res_Status := ""; res_StatusCode := 0; res_Proto := "HTTP/3";
     res_ProtoMajor := 3; res_Header := ∅; res_Body := None;
     res_ContentLength := 0; res_Uncompressed := false; res_TLS := tls |}.

Definition setStatus (res : Response) (code : Z) (status : string) : Response :=
  {| res_Status := status; res_StatusCode := code; res_Proto := res_Proto res;
     res_ProtoMajor := res_ProtoMajor res; res_Header := res_Header res;
     res_Body := res_Body res; res_ContentLength := res_ContentLength res;
     res_Uncompressed := res_Uncompressed res; res_TLS := res_TLS res |}.

Definition setHeader (res : Response) (h : http.Header) : Response :=
  {| res_Status := res_Status res; res_StatusCode := res_StatusCode res;
     res_Proto := res_Proto res; res_ProtoMajor := res_ProtoMajor res;
     res_Header := h; res_Body := res_Body res;
     res_ContentLength := res_ContentLength res;
     res_Uncompressed := res_Uncompressed res; res_TLS := res_TLS res |}.

Definition setContentLength (res : Response) (n : Z) : Response :=
  {| res_Status := res_Status res; res_StatusCode := res_StatusCode res;
     res_Proto := res_Proto res; res_ProtoMajor := res_ProtoMajor res;
     res_Header := res_Header res; res_Body := res_Body res;
     res_ContentLength := n; res_Uncompressed := res_Uncompressed res;
     res_TLS := res_TLS res |}.

Definition setBody (res : Response) (b : Body) (uncompressed : bool) : Response :=
  {| res_Status := res_Status res; res_StatusCode := res_StatusCode res;
     res_Proto := res_Proto res; res_ProtoMajor := res_ProtoMajor res;
     res_Header := res_Header res; res_Body := Some b;
     res_ContentLength := res_ContentLength res;
     res_Uncompressed := uncompressed; res_TLS := res_TLS res |}.

Section Client.

Context {P : Package}.

(** [defaultQuicConfig] *)
Definition defaultQuicConfig : Config :=
  {| Versions := [VersionTLS]; MaxIncomingStreams := -1; KeepAlive := true;
     EnableDatagrams := false |}.

(** [newClient].  [conf] and [tlsConf] are [None] for nil. *)
Definition newClient (hostname : string) (tlsConf : option tlsConfig)
    (opts : roundTripperOpts) (conf : option Config) (dialer : option dialFunc)
  : client + error :=
  let conf1 :=
    match conf with
    | None => defaultQuicConfig
    | Some cf =>
        if (length (Versions cf) =? 0)%nat
        then {| Versions := [hd 0 (Versions defaultQuicConfig)];
                MaxIncomingStreams := MaxIncomingStreams cf;
                KeepAlive := KeepAlive cf;
                EnableDatagrams := EnableDatagrams cf |}
        else cf
    end in
  if negb (length (Versions conf1) =? 1)%nat then
    inr (errorString
           "can only use a single QUIC version for dialing a HTTP/3 connection")
  else
    let conf2 :=
      {| Versions := Versions conf1;
         MaxIncomingStreams :=
           if MaxIncomingStreams conf1 =? 0 then -1 else MaxIncomingStreams conf1;
         KeepAlive := KeepAlive conf1;
         EnableDatagrams := EnableDatagram opts |} in
    inl {| tlsConf := {| NextProtos := [versionToALPN (hd 0 (Versions conf2))] |};
           config := conf2;
           opts := opts;
           dialOnce := false;
           dialer := dialer;
           handshakeErr := None;
           decoder := qpackDecodeFull;
           hostname := authorityAddr "https" hostname;
           conn := None |}.

(** [Close] *)
Definition Close (c : client) : M (outcome (option error)) :=
  match conn c with
  | None => ret (Returns None)
  | Some cn =>
      emit (EvCloseWithError errorNoError "") ;;;
      ret (Returns (conn_CloseWithError cn errorNoError ""))
  end.

(** [doRequest], lines 312-315: whether gzip is asked for. *)
Definition requestGzip (c : client) (req : Request) : bool :=
  negb (DisableCompression (opts c))
  && negb (String.eqb (req_Method req) "HEAD")
  && String.eqb (http.Get (req_Header req) "Accept-Encoding") ""
  && String.eqb (http.Get (req_Header req) "Range") "".

(** [doRequest], lines 348-360: the loop over the decoded header fields. *)
Fixpoint readHeaderFields (hfs : list HeaderField) (res : Response)
  : Response + requestError :=
  match hfs with
  | [] => inl res
  | hf :: rest =>
      if String.eqb (Name hf) ":status" then
        match strconv.Atoi (Value hf) with
        | inr _ =>
            inr (newStreamError errorGeneralProtocolError
                   (errorString "malformed non-numeric status pseudo header"))
        | inl status =>
            readHeaderFields rest
              (setStatus res status (Value hf ++ " " ++ StatusText status))
        end
      else
        readHeaderFields rest
          (setHeader res (http.Add (res_Header res) (Name hf) (Value hf)))
  end.

(** [doRequest], lines 365-377: the content length. *)
Definition resolveContentLength (req : Request) (res : Response) : Response :=
  let hasTransferEncoding := bool_decide (is_Some (res_Header res !! "Transfer-Encoding")) in
  let isInformational := (res_StatusCode res >=? 100) && (res_StatusCode res <? 200) in
  let isNoContent := res_StatusCode res =? 204 in
  let isSuccessfulConnect :=
    String.eqb (req_Method req) http.MethodConnect
    && (res_StatusCode res >=? 200) && (res_StatusCode res <? 300) in
  if negb hasTransferEncoding && negb isInformational && negb isNoContent
     && negb isSuccessfulConnect
  then
    let res1 := setContentLength res (-1) in
    match res_Header res1 !! "Content-Length" with
    | Some [clen] =>
        match strconv.ParseInt clen with
        | inl clen64 => setContentLength res1 clen64
        | inr _ => res1
        end
    | _ => res1
    end
  else res.

(** [doRequest], lines 379-387: the body, decompressed when gzip was asked
    for and the response says it is gzip. *)
Definition bindBody (gzip : bool) (respBody : Body) (res : Response) : Response :=
  if gzip && String.eqb (http.Get (res_Header res) "Content-Encoding") "gzip"
  then
    let h := http.Del (http.Del (res_Header res) "Content-Encoding") "Content-Length" in
    setBody (setContentLength (setHeader res h) (-1)) (gzipReader respBody) true
  else setBody res respBody (res_Uncompressed res).

(** [doRequest].  [cn] is [c.conn]. *)
Definition doRequest (c : client) (cn : EarlyConnection) (req : Request) (str : Stream)
  : M (option Response * requestError) :=
  let gzip := requestGzip c req in
  emit (EvWriteRequest (req_Method req) gzip) ;;;
  match str_WriteRequest str req gzip with
  | Some e => ret (None, newStreamError errorInternalError e)
  | None =>
  fr <- parseNextFrame (str_frames str) None ;;
  match fr with
  | inr e => ret (None, newStreamError errorFrameError e)
  | inl (headersFrame Length) =>
      if Length >? maxHeaderBytes c then
        ret (None, newStreamError errorFrameError
               (errorString ("HEADERS frame too large: " ++ strconv.FormatUint Length
                             ++ " bytes (max: " ++ strconv.FormatUint (maxHeaderBytes c)
                             ++ ")")))
      else
        emit (EvMake Length) ;;;
        emit (EvReadFull Length) ;;;
        match str_ReadFull str Length with
        | inr e => ret (None, newStreamError errorRequestIncomplete e)
        | inl headerBlock =>
        emit EvDecodeFull ;;;
        match decoder c headerBlock with
        | inr e => ret (None, newConnError errorGeneralProtocolError e)
        | inl hfs =>
        emit EvConnectionState ;;;
        let res := emptyResponse (cs_TLS (conn_ConnectionState cn)) in
        match readHeaderFields hfs res with
        | inr rerr => ret (None, rerr)
        | inl res1 =>
            let respBody := responseBody in
            let res2 := resolveContentLength req res1 in
            ret (Some (bindBody gzip respBody res2), noRequestError)
        end
        end
        end
  | inl _ =>
      ret (None, newConnError errorFrameUnexpected
             (errorString "expected first frame to be a HEADERS frame"))
  end
  end.

(** [dial]: the new state of the client and the error. *)
Definition dial (c : client) : M (client * option error) :=
  emit (EvDial (hostname c)) ;;;
  let r := match dialer c with
           | Some d => d (hostname c) (tlsConf c) (config c)
           | None => dialAddr (hostname c) (tlsConf c) (config c)
           end in
  let withConn (cn : option EarlyConnection) : client :=
    {| tlsConf := tlsConf c; config := config c;
       opts := opts c; dialOnce := dialOnce c; dialer := dialer c;
       handshakeErr := handshakeErr c; decoder := decoder c;
       hostname := hostname c; conn := cn |} in
  match r with
  | inr e => ret (withConn None, Some e)
  | inl cn =>
      emit (EvGo goSetupConn) ;;;
      when (bool_decide (is_Some (StreamHijacker (opts c))))
           (emit (EvGo goHandleBidirectionalStreams)) ;;;
      emit (EvGo goHandleUnidirectionalStreams) ;;;
      ret (withConn (Some cn), None)
  end.

(** [c.dialOnce.Do(func() { c.handshakeErr = c.dial(req.Context()) })] *)
Definition dialOnceDo (c : client) : M client :=
  if dialOnce c then ret c
  else
    r <- dial c ;;
    let c1 := fst r in
    ret {| tlsConf := tlsConf c1; config := config c1;
           opts := opts c1; dialOnce := true; dialer := dialer c1;
           handshakeErr := snd r; decoder := decoder c1;
           hostname := hostname c1; conn := conn c1 |}.

(** [RoundTrip], lines 281-288: the goroutine that watches the context of
    the request until the done channel is closed; [contextDone] says which
    case of its select fires. *)
Definition cancelWatcher (contextDone : bool) : M unit :=
  if contextDone
  then emit (EvCancelWrite errorRequestCanceled) ;;;
       emit (EvCancelRead errorRequestCanceled)
  else ret tt.

(** [RoundTrip], lines 290-304: what is done with the result of
    [doRequest]. *)
Definition cleanup (rerr : requestError) : M unit :=
  match err rerr with
  | Some _ =>
      emit EvCloseReqDone ;;;
      when (negb (streamErr rerr =? 0)) (emit (EvCancelWrite (streamErr rerr))) ;;;
      when (negb (connErr rerr =? 0))
           (let reason := match err rerr with
                          | Some e => Error e
                          | None => ""
                          end in
            emit (EvCloseWithError (connErr rerr) reason))
  | None => ret tt
  end.

(** [RoundTrip]: the state of the client afterwards and what is returned. *)
Definition RoundTrip (c : client) (req : Request)
  : M (client * outcome (option Response * option error)) :=
  if negb (String.eqb (authorityAddr "https" (hostnameFromRequest req)) (hostname c))
  then
    ret (c, Returns (None, Some (errorString
           ("http3 client BUG: RoundTrip called for the wrong client (expected "
            ++ hostname c ++ ", got " ++ req_Host req ++ ")"))))
  else
  c1 <- dialOnceDo c ;;
  match handshakeErr c1 with
  | Some e => ret (c1, Returns (None, Some e))
  | None =>
  match conn c1 with
  | None => ret (c1, Panics)
  | Some cn =>
  let zeroRTT := String.eqb (req_Method req) MethodGet0RTT in
  let req1 := if zeroRTT then setMethod req http.MethodGet else req in
  contextDone <-
    (if zeroRTT then ret false
     else emit EvSelectHandshakeOrContext ;;;
          ret (doneBeforeHandshake (req_Context req))) ;;
  if (contextDone : bool) then
    ret (c1, Returns (None, Some (ctxErr (req_Context req))))
  else
  emit EvOpenStreamSync ;;;
  match conn_OpenStreamSync cn with
  | inr e => ret (c1, Returns (None, Some e))
  | inl str =>
      emit (EvGo goCancelWatcher) ;;;
      r <- doRequest c1 cn req1 str ;;
      cleanup (snd r) ;;;
      ret (c1, Returns (fst r, err (snd r)))
  end
  end
  end.

(** [handleUnidirectionalStreams], lines 200-205: the handler for unknown
    frame types, [nil] without a [UniStreamHijacker]. *)
Definition ufh (c : client) : option unknownFrameHandlerFunc :=
  match UniStreamHijacker (opts c) with
  | Some hijacker => Some (fun ft => hijacker ft)
  | None => None
  end.

(** [handleUnidirectionalStreams], lines 206-227: the control stream. *)
Definition handleControlStream (c : client) (cn : EarlyConnection) (str : ReceiveStream)
  : M unit :=
  fr <- parseNextFrame (rstr_frames str) (ufh c) ;;
  match fr with
  | inr e =>
      if isHijacked e then ret tt
      else emit (EvCloseWithError errorFrameError "")
  | inl (settingsFrame Datagram _) =>
      if negb Datagram then ret tt
      else if EnableDatagram (opts c)
      then emit EvConnectionState ;;;
           when (negb (cs_SupportsDatagrams (conn_ConnectionState cn)))
                (emit (EvCloseWithError errorSettingsError "missing QUIC Datagram support"))
      else ret tt
  | inl _ => emit (EvCloseWithError errorMissingSettings "")
  end.

(** [handleUnidirectionalStreams], lines 178-228: the goroutine started for
    one accepted stream. *)
Definition handleUniStream (c : client) (cn : EarlyConnection) (str : ReceiveStream)
  : M unit :=
  emit EvReadStreamType ;;;
  match rstr_streamType str with
  | inr _ => ret tt
  | inl streamType =>
      if streamType =? streamTypeControlStream then handleControlStream c cn str
      else if (streamType =? streamTypeQPACKEncoderStream)
              || (streamType =? streamTypeQPACKDecoderStream) then ret tt
      else if streamType =? streamTypePushStream
      then emit (EvCloseWithError errorIDError "")
      else emit (EvCancelRead errorStreamCreationError)
  end.

(** [handleUnidirectionalStreams]: one goroutine for each stream accepted
    before [AcceptUniStream] fails; the events of each of them. *)
Definition handleUnidirectionalStreams (c : client) (cn : EarlyConnection)
  : list (list event) :=
  map (fun str => trace (handleUniStream c cn str)) (conn_AcceptUniStream cn).

End Client.

(** ** Notions the properties are stated with *)

Section Notions.

Context {P : Package}.

(** [RoundTrip c req] gets as far as the exchange: the request is for this
    client, the connection [cn] is dialed (now or earlier) and leaves the
    client as [c1], the wait for the handshake is skipped or won by the
    handshake, and the stream [str] is opened; [req1] is the request as
    [doRequest] receives it. *)
Definition exchanges (c : client) (req : Request)
    (c1 : client) (cn : EarlyConnection) (req1 : Request) (str : Stream) : Prop :=
  authorityAddr "https" (hostnameFromRequest req) = hostname c /\
  result (dialOnceDo c) = c1 /\
  handshakeErr c1 = None /\
  conn c1 = Some cn /\
  (req_Method req = MethodGet0RTT /\ req1 = setMethod req http.MethodGet \/
   req_Method req <> MethodGet0RTT /\
   doneBeforeHandshake (req_Context req) = false /\ req1 = req) /\
  conn_OpenStreamSync cn = inl str.

(** The events of [RoundTrip] before the exchange. *)
Definition prologue (c : client) (req : Request) : list event :=
  (trace (dialOnceDo c)
   ++ (if String.eqb (req_Method req) MethodGet0RTT then []
       else [EvSelectHandshakeOrContext])
   ++ [EvOpenStreamSync; EvGo goCancelWatcher])%list.

(** The exchange gets a decoded header block: the request is written, the
    first frame is a HEADERS frame of length [Length] within the budget, its
    payload is read and decodes to [hfs]. *)
Definition decodes (c : client) (req : Request) (str : Stream)
    (Length : Z) (hfs : list HeaderField) : Prop :=
  str_WriteRequest str req (requestGzip c req) = None /\
  result (parseNextFrame (str_frames str) None) = inl (headersFrame Length) /\
  Length <= maxHeaderBytes c /\
  exists headerBlock,
    str_ReadFull str Length = inl headerBlock /\
    decoder c headerBlock = inl hfs.

(** Every [:status] field of the block parses as an integer. *)
Definition statusesParse (hfs : list HeaderField) : Prop :=
  forall hf, In hf hfs -> Name hf = ":status" ->
             exists status, strconv.Atoi (Value hf) = inl status.

(** The error of [doRequest] for a status that does not parse. *)
Definition malformedStatus : requestError :=
  newStreamError errorGeneralProtocolError
    (errorString "malformed non-numeric status pseudo header").

End Notions.

(** The values of the header fields that [doRequest] files under the
    canonical key [key], in the order of the header block. *)
Definition headerValues (key : string) (hfs : list HeaderField) : list string :=
  map Value
    (filter (fun hf => Name hf <> ":status"
                       /\ textproto.CanonicalMIMEHeaderKey (Name hf) = key) hfs).

(** A status is numeric when it is a non-empty run of decimal digits, with
    an optional sign before it. *)
Definition numeric (v : string) : bool :=
  match v with
  | EmptyString => false
  | String c rest =>
      let digits := if Ascii.eqb c "+" || Ascii.eqb c "-" then rest else v in
      negb (String.eqb digits "")
      && forallb strconv.isDigit (list_ascii_of_string digits)
  end.

(** The header map [doRequest] builds from the block: under each key the
    values filed there, and no entry for a key without values. *)
Definition headerOf (hfs : list HeaderField) (key : string) : option (list string) :=
  match headerValues key hfs with
  | [] => None
  | vs => Some vs
  end.

(** A request sets a header when the header has a value and its first value
    is not empty: what [Header.Get] looks at. *)
Definition setsHeader (req : Request) (key : string) : Prop :=
  exists v vs, req_Header req !! key = Some (v :: vs) /\ v <> "".

(** The response announces gzip: the first Content-Encoding value of the
    block is "gzip". *)
Definition gzipEncoded (hfs : list HeaderField) : bool :=
  String.eqb (hd "" (headerValues "Content-Encoding" hfs)) "gzip".

(** The cases in which the content length is left alone: a
    Transfer-Encoding header, an informational status, 204, and a 2xx answer
    to CONNECT. *)
Definition lengthExempt (req : Request) (status : Z) (hfs : list HeaderField) : Prop :=
  headerValues "Transfer-Encoding" hfs <> []
  \/ 100 <= status < 200
  \/ status = 204
  \/ (req_Method req = http.MethodConnect /\ 200 <= status < 300).

(** How many times a trace reads a frame. *)
Definition frameReads (t : list event) : nat :=
  length (List.filter
            (fun ev => match ev with EvParseNextFrame => true | _ => false end) t).

(** The events of [dial]; the events of [doRequest]. *)
Definition isDialEvent (e : event) : bool :=
  match e with
  | EvDial _ | EvGo _ => true
  | _ => false
  end.

Definition isExchangeEvent (e : event) : bool :=
  match e with
  | EvWriteRequest _ _ | EvParseNextFrame | EvMake _ | EvReadFull _
  | EvDecodeFull | EvConnectionState => true
  | _ => false
  end.

Definition isCleanup (e : event) : bool :=
  match e with
  | EvCloseReqDone | EvCancelWrite _ | EvCancelRead _ | EvCloseWithError _ _ => true
  | _ => false
  end.

(** ** Concrete data for the examples *)

(** The codes and stream types of RFC 9114, QUIC version 1, and stand-ins
    for the functions. *)
Definition rfc9114 : Package := {|
  errorNoError := 0x100;
  errorGeneralProtocolError := 0x101;
  errorInternalError := 0x102;
  errorStreamCreationError := 0x103;
  errorFrameUnexpected := 0x105;
  errorFrameError := 0x106;
  errorIDError := 0x108;
  errorSettingsError := 0x109;
  errorMissingSettings := 0x10a;
  errorRequestCanceled := 0x10c;
  errorRequestIncomplete := 0x10d;
  streamTypeControlStream := 0;
  streamTypePushStream := 1;
  streamTypeQPACKEncoderStream := 2;
  streamTypeQPACKDecoderStream := 3;
  authorityAddr := fun _ host => host;
  hostnameFromRequest := req_Host;
  StatusText := fun code => if code =? 200 then "OK" else "";
  VersionTLS := 1;
  versionToALPN := fun v => if v =? 1 then "h3" else "h3-29";
  qpackDecodeFull := fun _ => inl [];
  dialAddr := fun _ _ _ => inr (errorString "no network")
|}.

Definition exOpts : roundTripperOpts :=
  {| DisableCompression := false; EnableDatagram := true; MaxHeaderBytes := 0;
     AdditionalSettings := ∅; StreamHijacker := None; UniStreamHijacker := None |}.

Definition exContext : RequestContext :=
  {| doneBeforeHandshake := false; ctxErr := errorString "context canceled" |}.

Definition exRequest (method : string) : Request :=
  {| req_Method := method; req_Host := "example.org:443"; req_Header := ∅;
     req_Context := exContext |}.

(** A stream on which the request is written and on which the codec finds
    [frames]; the payload read from it is empty. *)
Definition exStream (frames : frameInput) : Stream :=
  {| str_WriteRequest := fun _ _ => None; str_frames := frames;
     str_ReadFull := fun _ => inl [] |}.

Definition exConn (str : Stream) : EarlyConnection :=
  {| conn_AcceptUniStream := []; conn_OpenStreamSync := inl str;
     conn_ConnectionState := {| cs_TLS := 0; cs_SupportsDatagrams := false |};
     conn_CloseWithError := fun _ _ => None |}.

(** A client for example.org whose dialer answers with [cn] and whose
    decoder answers with [dec]. *)
Definition exClient (o : roundTripperOpts) (cn : EarlyConnection)
    (dec : list HeaderField + error) : client :=
  {| tlsConf := {| NextProtos := ["h3"] |};
     config := {| Versions := [1]; MaxIncomingStreams := -1; KeepAlive := true;
                  EnableDatagrams := EnableDatagram o |};
     opts := o; dialOnce := false; dialer := Some (fun _ _ _ => inl cn);
     handshakeErr := None; decoder := fun _ => dec;
     hostname := "example.org:443"; conn := None |}.

Definition exDialed (o : roundTripperOpts) (cn : EarlyConnection)
    (dec : list HeaderField + error) : client :=
  {| tlsConf := {| NextProtos := ["h3"] |};
     config := {| Versions := [1]; MaxIncomingStreams := -1; KeepAlive := true;
                  EnableDatagrams := EnableDatagram o |};
     opts := o; dialOnce := true; dialer := Some (fun _ _ _ => inl cn);
     handshakeErr := None; decoder := fun _ => dec;
     hostname := "example.org:443"; conn := Some cn |}.

(** Options with a hijacker for unidirectional streams that claims every
    frame type it is asked about. *)
Definition exHijackOpts : roundTripperOpts :=
  {| DisableCompression := false; EnableDatagram := true; MaxHeaderBytes := 0;
     AdditionalSettings := ∅; StreamHijacker := None;
     UniStreamHijacker := Some (fun _ => (true, None)) |}.

Definition exUniStream (streamType : Z) (frames : frameInput) : ReceiveStream :=
  {| rstr_streamType := inl streamType; rstr_frames := frames |}.

Definition exContextDone : RequestContext :=
  {| doneBeforeHandshake := true; ctxErr := errorString "context canceled" |}.

(** A stream that answers with a HEADERS frame, and the connection it is
    opened on. *)
Definition exHeadersStream : Stream := exStream (inputFrame (headersFrame 0)).
Definition exHeadersConn : EarlyConnection := exConn exHeadersStream.

(** The exchange of a request with method [method] on a dialed client, for
    a response whose header block decodes to [hfs]. *)
Definition exExchange (method : string) (hfs : list HeaderField)
  : M (option Response * requestError) :=
  doRequest (P := rfc9114) (exDialed exOpts exHeadersConn (inl hfs))
    exHeadersConn (exRequest method) exHeadersStream.

(** ** The rest of [client.go] *)

Section Rest.

Context {P : Package}.

(** [handleBidirectionalStreams], lines 153-166: the goroutine started for
    one accepted bidirectional stream.  [hijacker] is [c.opts.StreamHijacker],
    which is set when [dial] starts the loop; [reads i] is what the codec
    finds at call [i].  The loop of the source has no exit but the hijacked
    read: the result is [true] when the goroutine has returned and [false]
    when it is still in the loop after [fuel] reads. *)
Fixpoint handleBidiStream (hijacker : Z -> bool * option error)
    (reads : nat -> frameInput) (i fuel : nat) : M bool :=
  match fuel with
  | O => ret false
  | S fuel' =>
      fr <- parseNextFrame (reads i) (Some (fun ft => hijacker ft)) ;;
      if match fr with
         | inr e => isHijacked e
         | inl _ => false
         end
      then ret true
      else
        emit (EvCloseWithError errorFrameUnexpected
                "received HTTP/3 frame on bidirectional stream") ;;;
        handleBidiStream hijacker reads (S i) fuel'
  end.

(** Successive calls of [RoundTrip] on one client, the state of the client
    passed from each call to the next. *)
Fixpoint roundTrips (c : client) (reqs : list Request) : M client :=
  match reqs with
  | [] => ret c
  | req :: rest =>
      r <- RoundTrip c req ;;
      roundTrips (fst r) rest
  end.

End Rest.

(** ** More notions *)

(** What [dial] leaves true of a client: once [dialOnce] has run without an
    error there is a connection. *)
Definition wellFormed (c : client) : Prop :=
  dialOnce c = true -> handshakeErr c = None -> conn c <> None.

(** The value of the last [:status] field of a header block. *)
Definition lastStatus (hfs : list HeaderField) : option string :=
  last (map Value (filter (fun hf => Name hf = ":status") hfs)).

(** How many times a trace dials. *)
Definition dials (t : list event) : nat :=
  length (List.filter (fun ev => match ev with EvDial _ => true | _ => false end) t).

(** The code and the reason of each [CloseWithError] of a trace. *)
Definition closes (t : list event) : list (Z * string) :=
  omap (fun ev => match ev with
                  | EvCloseWithError code reason => Some (code, reason)
                  | _ => None
                  end) t.

(** The first field of a header block that [doRequest] files under the
    canonical key [key]. *)
Definition firstField (key : string) (hfs : list HeaderField) : option HeaderField :=
  List.find (fun hf => bool_decide (Name hf <> ":status"
                                    /\ textproto.CanonicalMIMEHeaderKey (Name hf) = key))
    hfs.

(** Read [i] of a bidirectional stream is taken over by the hijacker: the
    codec returns the sentinel. *)
Definition hijackedAt (hijacker : Z -> bool * option error)
    (reads : nat -> frameInput) (i : nat) : bool :=
  match result (parseNextFrame (reads i) (Some (fun ft => hijacker ft))) with
  | inr e => isHijacked e
  | inl _ => false
  end.

(** The values of an int64. *)
Definition int64 (z : Z) : Prop := - 2 ^ 63 <= z < 2 ^ 63.

(** The steps of an exchange, in the order [doRequest] takes them. *)
Definition exchangeSteps (method : string) (gzip : bool) (Length : Z) : list event :=
  [EvWriteRequest method gzip; EvParseNextFrame; EvMake Length; EvReadFull Length;
   EvDecodeFull; EvConnectionState].

(** What the dialer of a client, or [dialAddr] without one, answers. *)
Definition dialAnswer {P : Package} (c : client) : EarlyConnection + error :=
  match dialer c with
  | Some d => d (hostname c) (tlsConf c) (config c)
  | None => dialAddr (hostname c) (tlsConf c) (config c)
  end.

(** The request is for this client. *)
Definition forClient {P : Package} (c : client) (req : Request) : Prop :=
  authorityAddr "https" (hostnameFromRequest req) = hostname c.

(** A client for example.org whose dialer fails. *)
Definition exFailingClient : client :=
  {| tlsConf := {| NextProtos := ["h3"] |};
     config := {| Versions := [1]; MaxIncomingStreams := -1; KeepAlive := true;
                  EnableDatagrams := true |};
     opts := exOpts; dialOnce := false;
     dialer := Some (fun _ _ _ => inr (errorString "no route to host"));
     handshakeErr := None; decoder := fun _ => inl [];
     hostname := "example.org:443"; conn := None |}.

(** ** Proofs *)

Section Proofs.

Context {P : Package}.

Lemma trace_bind {A B : Type} (m : M A) (k : A -> M B) :
  trace (bind m k) = (trace m ++ trace (k (result m)))%list.
Proof. destruct m as [a t]. unfold bind, trace, result. simpl. destruct (k a). reflexivity. Qed.

Lemma result_bind {A B : Type} (m : M A) (k : A -> M B) :
  result (bind m k) = result (k (result m)).
Proof. destruct m as [a t]. unfold bind, trace, result. simpl. destruct (k a). reflexivity. Qed.

Lemma trace_ret {A : Type} (a : A) : trace (ret a) = [].
Proof. reflexivity. Qed.

Lemma result_ret {A : Type} (a : A) : result (ret a) = a.
Proof. reflexivity. Qed.

Lemma trace_emit (e : event) : trace (emit e) = [e].
Proof. reflexivity. Qed.

Lemma trace_when (b : bool) (m : M unit) :
  trace (when b m) = if b then trace m else [].
Proof. destruct b; reflexivity. Qed.

Lemma M_eta {A : Type} (m : M A) : m = (result m, trace m).
Proof. destruct m; reflexivity. Qed.

Create Rewrite HintDb go.

#[local] Hint Rewrite @trace_bind @result_bind @trace_ret @result_ret
  trace_emit trace_when : go.

Ltac go := autorewrite with go.

Lemma parseNextFrame_nil_trace (r : frameInput) :
  trace (parseNextFrame r None) = [EvParseNextFrame].
Proof. destruct r; reflexivity. Qed.

(** What [RoundTrip] does once it gets to the exchange. *)
Lemma RoundTrip_exchange c req c1 cn req1 str :
  exchanges c req c1 cn req1 str ->
  let r := doRequest c1 cn req1 str in
  result (RoundTrip c req) = (c1, Returns (fst (result r), err (snd (result r)))) /\
  trace (RoundTrip c req)
  = (prologue c req ++ trace r ++ trace (cleanup (snd (result r))))%list.
Proof.
  intros (Hhost & Hdial & Hhs & Hconn & Hsel & Hopen) r.
  assert (Hreq : (if String.eqb (req_Method req) MethodGet0RTT
                  then setMethod req http.MethodGet else req) = req1).
  { destruct Hsel as [[Hm ->] | (Hm & _ & ->)].
    - rewrite Hm, String.eqb_refl. reflexivity.
    - apply String.eqb_neq in Hm. rewrite Hm. reflexivity. }
  assert (Hwait :
    (if String.eqb (req_Method req) MethodGet0RTT then ret false
     else emit EvSelectHandshakeOrContext ;;; ret (doneBeforeHandshake (req_Context req)))
    = (false, if String.eqb (req_Method req) MethodGet0RTT then []
              else [EvSelectHandshakeOrContext])).
  { destruct Hsel as [[Hm _] | (Hm & Hd & _)].
    - rewrite Hm, String.eqb_refl. reflexivity.
    - apply String.eqb_neq in Hm. rewrite Hm, Hd. reflexivity. }
  unfold RoundTrip, prologue. rewrite Hhost, String.eqb_refl. cbn [negb].
  split.
  - rewrite result_bind, Hdial, Hhs, Hconn, Hreq, Hwait, result_bind.
    cbn [result fst]. rewrite result_bind, Hopen. go. reflexivity.
  - rewrite trace_bind, Hdial, Hhs, Hconn, Hreq, Hwait, trace_bind.
    cbn [result trace fst snd]. rewrite trace_bind, Hopen. go.
    fold r. rewrite <- !app_assoc, app_nil_r. reflexivity.
Qed.

(** *** The paths through [doRequest] *)

Lemma parseNextFrame_nil_eq (r : frameInput) (x : frame + error) :
  result (parseNextFrame r None) = x ->
  parseNextFrame r None = (x, [EvParseNextFrame]).
Proof.
  intros <-. rewrite (M_eta (parseNextFrame r None)) at 1.
  rewrite parseNextFrame_nil_trace. reflexivity.
Qed.

Lemma doRequest_write_fails c cn req str e :
  str_WriteRequest str req (requestGzip c req) = Some e ->
  doRequest c cn req str
  = ((None, newStreamError errorInternalError e),
     [EvWriteRequest (req_Method req) (requestGzip c req)]).
Proof. intros H. unfold doRequest. rewrite H. reflexivity. Qed.

Lemma doRequest_frame_error c cn req str e :
  str_WriteRequest str req (requestGzip c req) = None ->
  result (parseNextFrame (str_frames str) None) = inr e ->
  doRequest c cn req str
  = ((None, newStreamError errorFrameError e),
     [EvWriteRequest (req_Method req) (requestGzip c req); EvParseNextFrame]).
Proof.
  intros Hw Hf. unfold doRequest.
  rewrite Hw, (parseNextFrame_nil_eq _ _ Hf). reflexivity.
Qed.

Lemma doRequest_frame_unexpected c cn req str f :
  str_WriteRequest str req (requestGzip c req) = None ->
  result (parseNextFrame (str_frames str) None) = inl f ->
  (forall Length, f <> headersFrame Length) ->
  doRequest c cn req str
  = ((None, newConnError errorFrameUnexpected
              (errorString "expected first frame to be a HEADERS frame")),
     [EvWriteRequest (req_Method req) (requestGzip c req); EvParseNextFrame]).
Proof.
  intros Hw Hf Hn. unfold doRequest.
  rewrite Hw, (parseNextFrame_nil_eq _ _ Hf).
  destruct f as [L | L | d o]; try reflexivity.
  exfalso. apply (Hn L). reflexivity.
Qed.

Lemma doRequest_headers_too_large c cn req str Length :
  str_WriteRequest str req (requestGzip c req) = None ->
  result (parseNextFrame (str_frames str) None) = inl (headersFrame Length) ->
  maxHeaderBytes c < Length ->
  doRequest c cn req str
  = ((None, newStreamError errorFrameError
              (errorString ("HEADERS frame too large: " ++ strconv.FormatUint Length
                            ++ " bytes (max: "
                            ++ strconv.FormatUint (maxHeaderBytes c) ++ ")"))),
     [EvWriteRequest (req_Method req) (requestGzip c req); EvParseNextFrame]).
Proof.
  intros Hw Hf Hl. unfold doRequest.
  rewrite Hw, (parseNextFrame_nil_eq _ _ Hf).
  assert (Hgt : (Length >? maxHeaderBytes c) = true) by lia.
  unfold bind, emit, ret. rewrite Hgt. reflexivity.
Qed.

Lemma doRequest_read_fails c cn req str Length e :
  str_WriteRequest str req (requestGzip c req) = None ->
  result (parseNextFrame (str_frames str) None) = inl (headersFrame Length) ->
  Length <= maxHeaderBytes c ->
  str_ReadFull str Length = inr e ->
  doRequest c cn req str
  = ((None, newStreamError errorRequestIncomplete e),
     [EvWriteRequest (req_Method req) (requestGzip c req); EvParseNextFrame;
      EvMake Length; EvReadFull Length]).
Proof.
  intros Hw Hf Hl Hr. unfold doRequest.
  rewrite Hw, (parseNextFrame_nil_eq _ _ Hf).
  assert (Hgt : (Length >? maxHeaderBytes c) = false) by lia.
  unfold bind, emit, ret. rewrite Hgt, Hr. reflexivity.
Qed.

Lemma doRequest_decode_fails c cn req str Length headerBlock e :
  str_WriteRequest str req (requestGzip c req) = None ->
  result (parseNextFrame (str_frames str) None) = inl (headersFrame Length) ->
  Length <= maxHeaderBytes c ->
  str_ReadFull str Length = inl headerBlock ->
  decoder c headerBlock = inr e ->
  doRequest c cn req str
  = ((None, newConnError errorGeneralProtocolError e),
     [EvWriteRequest (req_Method req) (requestGzip c req); EvParseNextFrame;
      EvMake Length; EvReadFull Length; EvDecodeFull]).
Proof.
  intros Hw Hf Hl Hr Hd. unfold doRequest.
  rewrite Hw, (parseNextFrame_nil_eq _ _ Hf).
  assert (Hgt : (Length >? maxHeaderBytes c) = false) by lia.
  unfold bind, emit, ret. rewrite Hgt, Hr, Hd. reflexivity.
Qed.

(** With a decoded header block the outcome is that of the loop over the
    header fields. *)
Lemma doRequest_decoded c cn req str Length hfs :
  decodes c req str Length hfs ->
  doRequest c cn req str
  = (match readHeaderFields hfs (emptyResponse (cs_TLS (conn_ConnectionState cn))) with
     | inr rerr => (None, rerr)
     | inl res1 =>
         (Some (bindBody (requestGzip c req) responseBody
                  (resolveContentLength req res1)), noRequestError)
     end,
     [EvWriteRequest (req_Method req) (requestGzip c req); EvParseNextFrame;
      EvMake Length; EvReadFull Length; EvDecodeFull; EvConnectionState]).
Proof.
  intros (Hw & Hf & Hl & headerBlock & Hr & Hd).
  unfold doRequest.
  rewrite Hw, (parseNextFrame_nil_eq _ _ Hf).
  assert (Hgt : (Length >? maxHeaderBytes c) = false) by lia.
  unfold bind, emit, ret. rewrite Hgt, Hr, Hd.
  destruct (readHeaderFields hfs _); reflexivity.
Qed.

(** *** The loop over the header fields *)

Lemma readHeaderFields_error hfs res rerr :
  readHeaderFields hfs res = inr rerr -> rerr = malformedStatus.
Proof.
  revert res. induction hfs as [|hf rest IH]; intros res; simpl; [discriminate|].
  destruct (String.eqb (Name hf) ":status").
  - destruct (strconv.Atoi (Value hf)); [apply IH | intros [= <-]; reflexivity].
  - apply IH.
Qed.

Lemma readHeaderFields_bad_status hfs res hf :
  In hf hfs -> Name hf = ":status" ->
  (exists e, strconv.Atoi (Value hf) = inr e) ->
  readHeaderFields hfs res = inr malformedStatus.
Proof.
  intros Hin Hname [e He]. revert res.
  induction hfs as [|hf0 rest IH]; intros res; [contradiction|].
  simpl. destruct Hin as [-> | Hin].
  - rewrite Hname, String.eqb_refl, He. reflexivity.
  - destruct (String.eqb (Name hf0) ":status").
    + destruct (strconv.Atoi (Value hf0)) as [n|e0]; [apply IH; assumption | reflexivity].
    + apply IH; assumption.
Qed.

Lemma parseUintLoop_non_digit s : forall n,
  forallb strconv.isDigit (list_ascii_of_string s) = false ->
  exists e, strconv.parseUintLoop n s = inr e.
Proof.
  induction s as [|ch rest IH]; intros n; simpl; [discriminate|].
  destruct (strconv.isDigit ch); simpl.
  - intros Hrest. destruct (n >=? _); [eauto|].
    destruct (_ >? _); [eauto|]. apply IH, Hrest.
  - eauto.
Qed.

Lemma ParseUint_non_numeric s :
  negb (String.eqb s "") && forallb strconv.isDigit (list_ascii_of_string s) = false ->
  exists e, strconv.ParseUint s = inr e.
Proof.
  destruct s as [|ch rest]; [simpl; eauto|].
  intros H. simpl negb in H. rewrite andb_true_l in H.
  unfold strconv.ParseUint. apply parseUintLoop_non_digit, H.
Qed.

(** A status that is not numeric is refused by [strconv.Atoi]. *)
Lemma Atoi_non_numeric v :
  numeric v = false -> exists e, strconv.Atoi v = inr e.
Proof.
  unfold numeric, strconv.Atoi, strconv.ParseInt.
  destruct v as [|ch rest]; [eauto|].
  intros H. apply ParseUint_non_numeric in H. destruct H as [e He].
  rewrite He. eauto.
Qed.

Lemma headerValues_cons_status key hf rest :
  Name hf = ":status" -> headerValues key (hf :: rest) = headerValues key rest.
Proof.
  intros H. unfold headerValues. rewrite filter_cons_False; [reflexivity|].
  intros [Hn _]. contradiction.
Qed.

Lemma headerValues_cons_key hf rest :
  Name hf <> ":status" ->
  headerValues (textproto.CanonicalMIMEHeaderKey (Name hf)) (hf :: rest)
  = Value hf :: headerValues (textproto.CanonicalMIMEHeaderKey (Name hf)) rest.
Proof.
  intros H. unfold headerValues. rewrite filter_cons_True; [reflexivity|].
  split; [exact H | reflexivity].
Qed.

Lemma headerValues_cons_other key hf rest :
  textproto.CanonicalMIMEHeaderKey (Name hf) <> key ->
  headerValues key (hf :: rest) = headerValues key rest.
Proof.
  intros H. unfold headerValues. rewrite filter_cons_False; [reflexivity|].
  intros [_ Hk]. contradiction.
Qed.

(** The loop files each field that is not [:status] under its canonical
    key, after the values already there. *)
Lemma readHeaderFields_lookup hfs : forall res res' key,
  readHeaderFields hfs res = inl res' ->
  res_Header res' !! key
  = match headerValues key hfs with
    | [] => res_Header res !! key
    | vs => Some (default [] (res_Header res !! key) ++ vs)%list
    end.
Proof.
  induction hfs as [|hf rest IH]; intros res res' key; simpl.
  - intros [= <-]. reflexivity.
  - destruct (String.eqb (Name hf) ":status") eqn:Es.
    + apply String.eqb_eq in Es.
      destruct (strconv.Atoi (Value hf)) as [status|]; [|discriminate].
      intros H. rewrite (IH _ _ key H), (headerValues_cons_status _ _ _ Es).
      reflexivity.
    + apply String.eqb_neq in Es. intros H. rewrite (IH _ _ key H).
      cbn [setHeader res_Header]. unfold http.Add.
      destruct (decide (textproto.CanonicalMIMEHeaderKey (Name hf) = key)) as [<- | Hk].
      * rewrite (headerValues_cons_key _ _ Es), lookup_insert_eq.
        destruct (headerValues _ rest); cbn [default id]; [reflexivity|].
        rewrite <- app_assoc. reflexivity.
      * rewrite (headerValues_cons_other _ _ _ Hk), lookup_insert_ne by exact Hk.
        reflexivity.
Qed.

Lemma readHeaderFields_header hfs tls res key :
  readHeaderFields hfs (emptyResponse tls) = inl res ->
  res_Header res !! key = headerOf hfs key.
Proof.
  intros H. rewrite (readHeaderFields_lookup _ _ _ key H). unfold headerOf.
  cbn [emptyResponse res_Header]. rewrite lookup_empty. reflexivity.
Qed.

Lemma readHeaderFields_preserves hfs : forall res res',
  readHeaderFields hfs res = inl res' ->
  res_ContentLength res' = res_ContentLength res
  /\ res_Uncompressed res' = res_Uncompressed res
  /\ res_Body res' = res_Body res.
Proof.
  induction hfs as [|hf rest IH]; intros res res'; simpl.
  - intros [= <-]. auto.
  - destruct (String.eqb (Name hf) ":status").
    + destruct (strconv.Atoi (Value hf)) as [status|]; [|discriminate].
      intros H. apply IH in H. exact H.
    + intros H. apply IH in H. exact H.
Qed.

Lemma readHeaderFields_ok hfs : forall res,
  statusesParse hfs -> exists res', readHeaderFields hfs res = inl res'.
Proof.
  induction hfs as [|hf rest IH]; intros res Hst; simpl; [eauto|].
  assert (Hrest : statusesParse rest).
  { intros hf' Hin. apply Hst. right. exact Hin. }
  destruct (String.eqb (Name hf) ":status") eqn:Es.
  - apply String.eqb_eq in Es.
    destruct (Hst hf (or_introl eq_refl) Es) as [status ->]. apply IH, Hrest.
  - apply IH, Hrest.
Qed.

Lemma headerOf_is_Some hfs key :
  is_Some (headerOf hfs key) <-> headerValues key hfs <> [].
Proof.
  unfold headerOf. destruct (headerValues key hfs); split.
  - intros [x Hx]. discriminate.
  - intros H. contradiction.
  - intros _. discriminate.
  - intros _. eauto.
Qed.

(** *** What [doRequest] can return *)

Lemma doRequest_classified c cn req str :
  let r := result (doRequest c cn req str) in
  (exists res, r = (Some res, noRequestError)) \/
  (exists code e, r = (None, newStreamError code e)) \/
  (exists code e, r = (None, newConnError code e)).
Proof.
  unfold doRequest.
  rewrite (parseNextFrame_nil_eq _ _ eq_refl).
  destruct (str_WriteRequest str req _); [right; left; eauto|].
  destruct (result (parseNextFrame _ _)) as [[L|L|d o]|e];
    try solve [right; right; eauto | right; left; eauto].
  unfold bind, emit, ret.
  destruct (L >? _); [right; left; eauto|].
  destruct (str_ReadFull str L); [|right; left; eauto].
  destruct (decoder c _); [|right; right; eauto].
  destruct (readHeaderFields _ _) as [res|rerr] eqn:E.
  - left. eauto.
  - right; left. apply readHeaderFields_error in E. subst. unfold malformedStatus. eauto.
Qed.

Lemma doRequest_no_cleanup c cn req str :
  forallb (fun ev => negb (isCleanup ev)) (trace (doRequest c cn req str)) = true.
Proof.
  unfold doRequest.
  rewrite (parseNextFrame_nil_eq _ _ eq_refl).
  destruct (str_WriteRequest str req _); [reflexivity|].
  destruct (result (parseNextFrame _ _)) as [[L|L|d o]|e]; try reflexivity.
  unfold bind, emit, ret.
  destruct (L >? _); [reflexivity|].
  destruct (str_ReadFull str L); [|reflexivity].
  destruct (decoder c _); [|reflexivity].
  destruct (readHeaderFields _ _); reflexivity.
Qed.

Lemma dialOnceDo_no_cleanup c :
  forallb (fun ev => negb (isCleanup ev)) (trace (dialOnceDo c)) = true.
Proof.
  unfold dialOnceDo, dial. destruct (dialOnce c); [reflexivity|].
  destruct (match dialer c with
            | Some d => d (hostname c) (tlsConf c) (config c)
            | None => dialAddr (hostname c) (tlsConf c) (config c)
            end);
    [|reflexivity].
  destruct (StreamHijacker (opts c)); reflexivity.
Qed.

Lemma prologue_no_cleanup c req :
  forallb (fun ev => negb (isCleanup ev)) (prologue c req) = true.
Proof.
  unfold prologue. rewrite !forallb_app, dialOnceDo_no_cleanup.
  destruct (String.eqb _ _); reflexivity.
Qed.

Lemma trace_cleanup rerr e :
  err rerr = Some e ->
  trace (cleanup rerr)
  = (EvCloseReqDone
     :: (if streamErr rerr =? 0 then [] else [EvCancelWrite (streamErr rerr)])
     ++ (if connErr rerr =? 0 then [] else [EvCloseWithError (connErr rerr) (Error e)]))%list.
Proof.
  intros H. unfold cleanup. rewrite H.
  destruct (streamErr rerr =? 0), (connErr rerr =? 0); reflexivity.
Qed.

(** *** Failure escalation in [RoundTrip] *)

(** C1. When the exchange of a [RoundTrip] call returns an error, what
    [RoundTrip] then does is, in this order: it closes the done channel of the
    cancellation watcher; if the stream error code of the error is not zero it
    cancels the write side of the request stream with that code; if the
    connection error code is not zero it closes the connection with that code
    and with the message of the error as the reason.  Nothing of the kind
    (closing the channel, cancelling a side of the stream, closing the
    connection) happens before, the read side is not cancelled, one of the two
    codes is zero, and the error is what [RoundTrip] returns. *)
Theorem RoundTrip_error_cleanup c req c1 cn req1 str e :
  exchanges c req c1 cn req1 str ->
  err (snd (result (doRequest c1 cn req1 str))) = Some e ->
  let rerr := snd (result (doRequest c1 cn req1 str)) in
  let before := (prologue c req ++ trace (doRequest c1 cn req1 str))%list in
  trace (RoundTrip c req)
  = (before
     ++ EvCloseReqDone
     :: (if streamErr rerr =? 0 then [] else [EvCancelWrite (streamErr rerr)])
     ++ (if connErr rerr =? 0 then []
         else [EvCloseWithError (connErr rerr) (Error e)]))%list
  /\ forallb (fun ev => negb (isCleanup ev)) before = true
  /\ (forall code, ~ In (EvCancelRead code) (trace (RoundTrip c req)))
  /\ (streamErr rerr = 0 \/ connErr rerr = 0)
  /\ result (RoundTrip c req) = (c1, Returns (None, Some e)).
Proof.
  intros Hex He rerr before.
  destruct (RoundTrip_exchange _ _ _ _ _ _ Hex) as [Hres Htr].
  assert (Hbefore : forallb (fun ev => negb (isCleanup ev)) before = true).
  { unfold before. rewrite forallb_app, prologue_no_cleanup, doRequest_no_cleanup.
    reflexivity. }
  assert (Htrace : trace (RoundTrip c req)
    = (before
       ++ EvCloseReqDone
       :: (if streamErr rerr =? 0 then [] else [EvCancelWrite (streamErr rerr)])
       ++ (if connErr rerr =? 0 then []
           else [EvCloseWithError (connErr rerr) (Error e)]))%list).
  { rewrite Htr, (trace_cleanup _ _ He). unfold before. rewrite <- app_assoc. reflexivity. }
  split; [exact Htrace|]. split; [exact Hbefore|]. split; [|split].
  - intros code Hin. rewrite Htrace in Hin.
    apply in_app_or in Hin. destruct Hin as [Hin | Hin].
    + rewrite forallb_forall in Hbefore. apply Hbefore in Hin. discriminate.
    + destruct Hin as [Hin | Hin]; [discriminate|].
      apply in_app_or in Hin. destruct Hin as [Hin | Hin].
      * destruct (streamErr rerr =? 0); [contradiction|].
        destruct Hin as [Hin | []]. discriminate.
      * destruct (connErr rerr =? 0); [contradiction|].
        destruct Hin as [Hin | []]. discriminate.
  - destruct (doRequest_classified c1 cn req1 str)
      as [[res Hr] | [(code & e0 & Hr) | (code & e0 & Hr)]];
      unfold rerr; rewrite Hr; simpl; auto.
  - rewrite Hres.
    destruct (doRequest_classified c1 cn req1 str)
      as [[res Hr] | [(code & e0 & Hr) | (code & e0 & Hr)]];
      unfold rerr in *; rewrite Hr in *; simpl in *; congruence.
Qed.

(** C3. When the request is written and the first frame read from the
    stream is not a HEADERS frame, the exchange ends there: for a frame of
    another type with the connection error "frame unexpected", and
    [RoundTrip] closes the connection with that code and the reason
    "expected first frame to be a HEADERS frame"; for a frame that fails to
    parse with the stream error "frame error" wrapping the parse error, and
    [RoundTrip] only cancels the write side of the stream. *)
Theorem first_frame_not_headers c req c1 cn req1 str (first : frame + error) :
  exchanges c req c1 cn req1 str ->
  str_WriteRequest str req1 (requestGzip c1 req1) = None ->
  result (parseNextFrame (str_frames str) None) = first ->
  (forall Length, first <> inl (headersFrame Length)) ->
  errorFrameUnexpected <> 0 ->
  errorFrameError <> 0 ->
  let rerr := match first with
              | inl _ => newConnError errorFrameUnexpected
                           (errorString "expected first frame to be a HEADERS frame")
              | inr e => newStreamError errorFrameError e
              end in
  result (doRequest c1 cn req1 str) = (None, rerr)
  /\ result (RoundTrip c req) = (c1, Returns (None, err rerr))
  /\ trace (RoundTrip c req)
     = (prologue c req
        ++ [EvWriteRequest (req_Method req1) (requestGzip c1 req1);
            EvParseNextFrame;
            EvCloseReqDone;
            match first with
            | inl _ => EvCloseWithError errorFrameUnexpected
                         "expected first frame to be a HEADERS frame"
            | inr _ => EvCancelWrite errorFrameError
            end])%list.
Proof.
  intros Hex Hw Hf Hnh Hu He rerr.
  destruct (RoundTrip_exchange _ _ _ _ _ _ Hex) as [Hres Htr].
  assert (Hdo : doRequest c1 cn req1 str
                = ((None, rerr),
                   [EvWriteRequest (req_Method req1) (requestGzip c1 req1);
                    EvParseNextFrame])).
  { unfold rerr. destruct first as [f | e].
    - apply doRequest_frame_unexpected with (f := f); auto.
      intros L ->. apply (Hnh L). reflexivity.
    - apply doRequest_frame_error; auto. }
  rewrite Hres, Htr, Hdo. cbn [result trace fst snd].
  split; [reflexivity|]. split; [reflexivity|].
  f_equal. unfold rerr. destruct first as [f | e]; unfold cleanup; simpl.
  - apply Z.eqb_neq in Hu. rewrite Hu. reflexivity.
  - apply Z.eqb_neq in He. rewrite He. reflexivity.
Qed.

(** *** The header byte budget *)

Lemma maxHeaderBytes_default c :
  MaxHeaderBytes (opts c) <= 0 -> maxHeaderBytes c = 10485760.
Proof.
  intros H. unfold maxHeaderBytes.
  assert (E : (MaxHeaderBytes (opts c) <=? 0) = true) by lia.
  rewrite E. reflexivity.
Qed.

Lemma maxHeaderBytes_configured c :
  0 < MaxHeaderBytes (opts c) < 2 ^ 63 ->
  maxHeaderBytes c = MaxHeaderBytes (opts c).
Proof.
  intros H. unfold maxHeaderBytes, uint64.
  assert (E : (MaxHeaderBytes (opts c) <=? 0) = false) by lia.
  rewrite E. apply Z.mod_small. lia.
Qed.

(** Every buffer [doRequest] makes is within the budget. *)
Lemma doRequest_make_bounded c cn req str n :
  In (EvMake n) (trace (doRequest c cn req str)) -> n <= maxHeaderBytes c.
Proof.
  unfold doRequest.
  rewrite (parseNextFrame_nil_eq _ _ eq_refl).
  destruct (str_WriteRequest str req _);
    [simpl; intros [H | []]; discriminate|].
  destruct (result (parseNextFrame _ _)) as [[L|L|d o]|e];
    try (simpl; intros [H | [H | []]]; discriminate).
  unfold bind, emit, ret.
  destruct (L >? maxHeaderBytes c) eqn:E;
    [simpl; intros [H | [H | []]]; discriminate|].
  assert (HL : L <= maxHeaderBytes c) by lia.
  destruct (str_ReadFull str L);
    [|simpl; intros [H | [H | [H | [H | []]]]]; try discriminate; congruence].
  destruct (decoder c _);
    [|simpl; intros [H | [H | [H | [H | [H | []]]]]]; try discriminate; congruence].
  destruct (readHeaderFields _ _);
    simpl; intros [H | [H | [H | [H | [H | [H | []]]]]]]; try discriminate; congruence.
Qed.

Lemma prologue_no_make c req n : ~ In (EvMake n) (prologue c req).
Proof.
  unfold prologue, dialOnceDo, dial. intros H.
  repeat (apply in_app_or in H; destruct H as [H | H]).
  - destruct (dialOnce c); [destruct H|].
    destruct (match dialer c with
            | Some d => d (hostname c) (tlsConf c) (config c)
            | None => dialAddr (hostname c) (tlsConf c) (config c)
            end);
      [destruct (StreamHijacker (opts c))|];
      simpl in H; repeat (destruct H as [H | H]; [discriminate|]); destruct H.
  - destruct (String.eqb _ _); simpl in H; [destruct H|].
    destruct H as [H | []]. discriminate.
  - simpl in H. destruct H as [H | [H | []]]; discriminate.
Qed.

(** C4. A HEADERS frame whose declared length is over [maxHeaderBytes()]
    ends the exchange with the stream error "frame error", and [RoundTrip]
    cancels the write side of the stream; no buffer is made on the way.
    Whatever the stream holds, a buffer [doRequest] makes is never longer
    than [maxHeaderBytes()], which is the configured [MaxHeaderBytes], or
    10,485,760 when that is not positive. *)
Theorem headers_frame_over_budget c req c1 cn req1 str Length :
  exchanges c req c1 cn req1 str ->
  str_WriteRequest str req1 (requestGzip c1 req1) = None ->
  result (parseNextFrame (str_frames str) None) = inl (headersFrame Length) ->
  maxHeaderBytes c1 < Length ->
  errorFrameError <> 0 ->
  - 2 ^ 63 <= MaxHeaderBytes (opts c1) < 2 ^ 63 ->
  (exists msg,
     result (doRequest c1 cn req1 str)
     = (None, newStreamError errorFrameError (errorString msg)))
  /\ trace (RoundTrip c req)
     = (prologue c req
        ++ [EvWriteRequest (req_Method req1) (requestGzip c1 req1);
            EvParseNextFrame; EvCloseReqDone; EvCancelWrite errorFrameError])%list
  /\ (forall n, ~ In (EvMake n) (trace (RoundTrip c req)))
  /\ (forall c' cn' req' str' n,
        In (EvMake n) (trace (doRequest c' cn' req' str')) -> n <= maxHeaderBytes c')
  /\ maxHeaderBytes c1
     = (if MaxHeaderBytes (opts c1) <=? 0 then 10485760 else MaxHeaderBytes (opts c1)).
Proof.
  intros Hex Hw Hf Hl He Hint.
  destruct (RoundTrip_exchange _ _ _ _ _ _ Hex) as [Hres Htr].
  pose proof (doRequest_headers_too_large c1 cn req1 str Length Hw Hf Hl) as Hdo.
  assert (Htrace : trace (RoundTrip c req)
     = (prologue c req
        ++ [EvWriteRequest (req_Method req1) (requestGzip c1 req1);
            EvParseNextFrame; EvCloseReqDone; EvCancelWrite errorFrameError])%list).
  { rewrite Htr, Hdo. cbn [result trace fst snd]. f_equal.
    unfold cleanup. simpl. apply Z.eqb_neq in He. rewrite He. reflexivity. }
  split; [rewrite Hdo; eauto|]. split; [exact Htrace|]. split; [|split].
  - intros n Hin. rewrite Htrace in Hin. apply in_app_or in Hin.
    destruct Hin as [Hin | Hin]; [exact (prologue_no_make _ _ _ Hin)|].
    simpl in Hin. repeat (destruct Hin as [Hin | Hin]; [discriminate|]). destruct Hin.
  - intros c' cn' req' str' n. apply doRequest_make_bounded.
  - destruct (MaxHeaderBytes (opts c1) <=? 0) eqn:E.
    + apply maxHeaderBytes_default. lia.
    + apply maxHeaderBytes_configured. lia.
Qed.

(** *** Malformed header blocks *)

(** C10. When the header block of the response does not decode
    ([DecodeFull] returns an error) the exchange fails with the connection
    error "general protocol error", and [RoundTrip] closes the connection
    with that code and the message of the decoder's error, without
    cancelling the stream.  When the block decodes and one of its [:status]
    fields is not numeric, the exchange fails with the stream error "general
    protocol error", and [RoundTrip] cancels the write side of the stream and
    does not close the connection. *)
Theorem malformed_header_block c req c1 cn req1 str Length headerBlock
    (decoded : list HeaderField + error) :
  exchanges c req c1 cn req1 str ->
  str_WriteRequest str req1 (requestGzip c1 req1) = None ->
  result (parseNextFrame (str_frames str) None) = inl (headersFrame Length) ->
  Length <= maxHeaderBytes c1 ->
  str_ReadFull str Length = inl headerBlock ->
  decoder c1 headerBlock = decoded ->
  match decoded with
  | inr _ => True
  | inl hfs => exists hf, In hf hfs /\ Name hf = ":status" /\ numeric (Value hf) = false
  end ->
  errorGeneralProtocolError <> 0 ->
  let rerr := match decoded with
              | inr e => newConnError errorGeneralProtocolError e
              | inl _ => newStreamError errorGeneralProtocolError
                           (errorString "malformed non-numeric status pseudo header")
              end in
  result (doRequest c1 cn req1 str) = (None, rerr)
  /\ result (RoundTrip c req) = (c1, Returns (None, err rerr))
  /\ trace (RoundTrip c req)
     = (prologue c req
        ++ [EvWriteRequest (req_Method req1) (requestGzip c1 req1); EvParseNextFrame;
            EvMake Length; EvReadFull Length; EvDecodeFull]
        ++ match decoded with
           | inr e => [EvCloseReqDone;
                       EvCloseWithError errorGeneralProtocolError (Error e)]
           | inl _ => [EvConnectionState; EvCloseReqDone;
                       EvCancelWrite errorGeneralProtocolError]
           end)%list.
Proof.
  intros Hex Hw Hf Hl Hr Hd Hbad Hcode rerr.
  destruct (RoundTrip_exchange _ _ _ _ _ _ Hex) as [Hres Htr].
  apply Z.eqb_neq in Hcode.
  destruct decoded as [hfs | e].
  - destruct Hbad as (hf & Hin & Hname & Hnum).
    assert (Hdec : decodes c1 req1 str Length hfs).
    { split; [exact Hw|]. split; [exact Hf|]. split; [exact Hl|]. eauto. }
    pose proof (doRequest_decoded c1 cn req1 str Length hfs Hdec) as Hdo.
    rewrite (readHeaderFields_bad_status hfs _ hf Hin Hname
               (Atoi_non_numeric _ Hnum)) in Hdo.
    rewrite Hres, Htr, Hdo. cbn [result trace fst snd].
    split; [reflexivity|]. split; [reflexivity|].
    f_equal. unfold cleanup, malformedStatus. simpl. rewrite Hcode. reflexivity.
  - pose proof (doRequest_decode_fails c1 cn req1 str Length headerBlock e
                  Hw Hf Hl Hr Hd) as Hdo.
    rewrite Hres, Htr, Hdo. cbn [result trace fst snd].
    split; [reflexivity|]. split; [reflexivity|].
    f_equal. unfold cleanup. simpl. rewrite Hcode. reflexivity.
Qed.

(** *** The content length and the body *)

Lemma Get_canonical (h : http.Header) key :
  textproto.CanonicalMIMEHeaderKey key = key ->
  http.Get h key = hd "" (default [] (h !! key)).
Proof.
  intros Hk. unfold http.Get. rewrite Hk.
  destruct (h !! key) as [[|v vs]|]; reflexivity.
Qed.

Lemma Get_empty_iff req key :
  textproto.CanonicalMIMEHeaderKey key = key ->
  http.Get (req_Header req) key = "" <-> ~ setsHeader req key.
Proof.
  intros Hk. unfold http.Get, setsHeader. rewrite Hk.
  destruct (req_Header req !! key) as [[|v vs]|]; split.
  - intros _ (v & vs & H & _). discriminate.
  - reflexivity.
  - intros -> (v' & vs' & [= <- <-] & Hne). apply Hne. reflexivity.
  - intros H. destruct (decide (v = "")) as [-> | Hne]; [reflexivity|].
    exfalso. apply H. eauto.
  - intros _ (v & vs & H & _). discriminate.
  - reflexivity.
Qed.

Lemma resolveContentLength_keeps req res :
  let res2 := resolveContentLength req res in
  res_Header res2 = res_Header res
  /\ res_StatusCode res2 = res_StatusCode res
  /\ res_Uncompressed res2 = res_Uncompressed res.
Proof.
  unfold resolveContentLength.
  destruct (negb _ && negb _ && negb _ && negb _); [|auto].
  cbn [setContentLength res_Header].
  destruct (res_Header res !! "Content-Length") as [[|clen [|]]|]; auto.
  destruct (strconv.ParseInt clen); auto.
Qed.

Lemma resolveContentLength_length req hfs tls res1 :
  readHeaderFields hfs (emptyResponse tls) = inl res1 ->
  res_ContentLength (resolveContentLength req res1)
  = match headerValues "Transfer-Encoding" hfs with
    | _ :: _ => 0
    | [] =>
        if ((res_StatusCode res1 >=? 100) && (res_StatusCode res1 <? 200))
           || (res_StatusCode res1 =? 204)
           || (String.eqb (req_Method req) http.MethodConnect
               && (res_StatusCode res1 >=? 200) && (res_StatusCode res1 <? 300))
        then 0
        else match headerValues "Content-Length" hfs with
             | [clen] => match strconv.ParseInt clen with
                         | inl clen64 => clen64
                         | inr _ => -1
                         end
             | _ => -1
             end
    end.
Proof.
  intros H.
  destruct (readHeaderFields_preserves _ _ _ H) as (Hcl & _ & _).
  cbn [emptyResponse res_ContentLength] in Hcl.
  unfold resolveContentLength.
  rewrite !(readHeaderFields_header _ _ _ _ H).
  cbn [setContentLength res_Header].
  rewrite ?(readHeaderFields_header _ _ _ _ H).
  unfold headerOf.
  destruct (headerValues "Transfer-Encoding" hfs) as [|te tes].
  - rewrite bool_decide_eq_false_2 by (intros [x Hx]; discriminate).
    cbn [negb andb].
    destruct ((res_StatusCode res1 >=? 100) && (res_StatusCode res1 <? 200));
      cbn [negb andb orb]; [exact Hcl|].
    destruct (res_StatusCode res1 =? 204); cbn [negb andb orb]; [exact Hcl|].
    destruct (String.eqb (req_Method req) http.MethodConnect
              && (res_StatusCode res1 >=? 200) && (res_StatusCode res1 <? 300));
      cbn [negb andb orb]; [exact Hcl|].
    destruct (headerValues "Content-Length" hfs) as [|clen [|clen2 rest]];
      try reflexivity.
    destruct (strconv.ParseInt clen); reflexivity.
  - rewrite bool_decide_eq_true_2 by eauto. cbn [negb andb]. exact Hcl.
Qed.

Lemma lengthExempt_dec req status hfs :
  lengthExempt req status hfs <->
  match headerValues "Transfer-Encoding" hfs with
  | _ :: _ => True
  | [] =>
      ((status >=? 100) && (status <? 200)) || (status =? 204)
      || (String.eqb (req_Method req) http.MethodConnect
          && (status >=? 200) && (status <? 300)) = true
  end.
Proof.
  unfold lengthExempt.
  destruct (headerValues "Transfer-Encoding" hfs) as [|te tes].
  - rewrite !orb_true_iff, !andb_true_iff, String.eqb_eq.
    split.
    + intros [H | [H | [H | [Hm H]]]]; [contradiction | | | ].
      * left; left. lia.
      * left; right. lia.
      * right. repeat split; [exact Hm | lia | lia].
    + intros [[H | H] | [[Hm H1] H2]].
      * right; left. lia.
      * right; right; left. lia.
      * right; right; right. split; [exact Hm | lia].
  - split; [auto|]. intros _. left. discriminate.
Qed.

(** What [doRequest] returns for a decoded header block whose statuses
    parse. *)
Lemma doRequest_success c cn req str Length hfs :
  decodes c req str Length hfs ->
  statusesParse hfs ->
  exists res1,
    readHeaderFields hfs (emptyResponse (cs_TLS (conn_ConnectionState cn))) = inl res1
    /\ doRequest c cn req str
       = ((Some (bindBody (requestGzip c req) responseBody
                   (resolveContentLength req res1)), noRequestError),
          [EvWriteRequest (req_Method req) (requestGzip c req); EvParseNextFrame;
           EvMake Length; EvReadFull Length; EvDecodeFull; EvConnectionState]).
Proof.
  intros Hdec Hst.
  destruct (readHeaderFields_ok hfs (emptyResponse (cs_TLS (conn_ConnectionState cn))) Hst)
    as [res1 Hres1].
  exists res1. split; [exact Hres1|].
  rewrite (doRequest_decoded _ _ _ _ _ _ Hdec), Hres1. reflexivity.
Qed.

Lemma bindBody_StatusCode gzip body res :
  res_StatusCode (bindBody gzip body res) = res_StatusCode res.
Proof. unfold bindBody. destruct (gzip && _); reflexivity. Qed.

Lemma bindBody_ContentLength gzip body res :
  res_ContentLength (bindBody gzip body res)
  = if gzip && String.eqb (http.Get (res_Header res) "Content-Encoding") "gzip"
    then -1 else res_ContentLength res.
Proof. unfold bindBody. destruct (gzip && _); reflexivity. Qed.

Lemma bindBody_gzip_test c req hfs tls res1 :
  readHeaderFields hfs (emptyResponse tls) = inl res1 ->
  requestGzip c req
  && String.eqb (http.Get (res_Header (resolveContentLength req res1))
                   "Content-Encoding") "gzip"
  = requestGzip c req && gzipEncoded hfs.
Proof.
  intros H. f_equal. unfold gzipEncoded.
  destruct (resolveContentLength_keeps req res1) as (-> & _ & _).
  rewrite Get_canonical by reflexivity.
  rewrite (readHeaderFields_header _ _ _ _ H). unfold headerOf.
  destruct (headerValues "Content-Encoding" hfs); reflexivity.
Qed.

(** C2. For a decoded response whose [:status] fields parse, [doRequest]
    returns a response and no error, whatever the Content-Length fields
    are.  If the response has a Transfer-Encoding header, or its status is
    1xx or 204, or it is a 2xx response to a CONNECT request, the content
    length is not taken from the headers: it stays at its zero value (and is
    -1 when the body is transparently decompressed).  Otherwise it is -1,
    except when there is exactly one Content-Length value and it parses as an
    integer, in which case it is that integer (and -1 when the body is
    transparently decompressed). *)
Theorem content_length_resolution c cn req str Length hfs :
  decodes c req str Length hfs ->
  statusesParse hfs ->
  exists res,
    result (doRequest c cn req str) = (Some res, noRequestError)
    /\ let gz := requestGzip c req && gzipEncoded hfs in
       (lengthExempt req (res_StatusCode res) hfs ->
          res_ContentLength res = if gz then -1 else 0)
       /\ (~ lengthExempt req (res_StatusCode res) hfs ->
          res_ContentLength res
          = match headerValues "Content-Length" hfs with
            | [clen] => match strconv.ParseInt clen with
                        | inl clen64 => if gz then -1 else clen64
                        | inr _ => -1
                        end
            | _ => -1
            end).
Proof.
  intros Hdec Hst.
  destruct (doRequest_success c cn req str Length hfs Hdec Hst) as (res1 & Hres1 & Hdo).
  eexists. rewrite Hdo. split; [reflexivity|].
  cbv zeta.
  rewrite bindBody_StatusCode, bindBody_ContentLength.
  rewrite (bindBody_gzip_test c req hfs _ res1 Hres1).
  rewrite (resolveContentLength_length req hfs _ res1 Hres1).
  destruct (resolveContentLength_keeps req res1) as (_ & -> & _).
  rewrite lengthExempt_dec.
  destruct (requestGzip c req && gzipEncoded hfs).
  - split; [reflexivity|].
    intros _. destruct (headerValues "Content-Length" hfs) as [|clen [|]]; try reflexivity.
    destruct (strconv.ParseInt clen); reflexivity.
  - destruct (headerValues "Transfer-Encoding" hfs) as [|te tes].
    + destruct (_ || _ || _); split; try reflexivity.
      * intros H. exfalso. apply H. reflexivity.
      * intros H. discriminate.
    + split; [reflexivity|]. intros H. exfalso. apply H. exact I.
Qed.

(** *** Transparent compression *)

Lemma requestGzip_iff c req :
  requestGzip c req = true <->
  DisableCompression (opts c) = false
  /\ req_Method req <> "HEAD"
  /\ ~ setsHeader req "Accept-Encoding"
  /\ ~ setsHeader req "Range".
Proof.
  unfold requestGzip.
  rewrite !andb_true_iff, negb_true_iff, negb_true_iff, String.eqb_neq, !String.eqb_eq.
  rewrite !Get_empty_iff by reflexivity. tauto.
Qed.

Lemma doRequest_writes_first c cn req str :
  exists rest,
    trace (doRequest c cn req str)
    = EvWriteRequest (req_Method req) (requestGzip c req) :: rest.
Proof. unfold doRequest. rewrite trace_bind, trace_emit. simpl. eauto. Qed.

Lemma unzipped_header_lookup (h : http.Header) key :
  http.Del (http.Del h "Content-Encoding") "Content-Length" !! key
  = if bool_decide (key = "Content-Encoding" \/ key = "Content-Length")
    then None else h !! key.
Proof.
  unfold http.Del.
  change (textproto.CanonicalMIMEHeaderKey "Content-Encoding") with "Content-Encoding".
  change (textproto.CanonicalMIMEHeaderKey "Content-Length") with "Content-Length".
  destruct (bool_decide_reflect (key = "Content-Encoding" \/ key = "Content-Length"))
    as [[-> | ->] | Hne].
  - rewrite lookup_delete_ne by discriminate. apply lookup_delete_eq.
  - apply lookup_delete_eq.
  - rewrite !lookup_delete_ne; [reflexivity | |]; intros <-; apply Hne; auto.
Qed.

(** C7. [doRequest] asks for gzip, which is what it hands to the request
    writer with the request, exactly when compression is not disabled, the
    method is not HEAD, and the request sets neither Accept-Encoding nor
    Range.  For a decoded response: when gzip was asked for and the first
    Content-Encoding value of the response is "gzip", the response returned
    has no Content-Encoding and no Content-Length header, its other headers
    as decoded, content length -1, and the body wrapped in the decompressing
    reader; otherwise the body is the raw body and the headers are as
    decoded. *)
Theorem transparent_gzip c cn req str Length hfs :
  decodes c req str Length hfs ->
  statusesParse hfs ->
  (requestGzip c req = true <->
     DisableCompression (opts c) = false
     /\ req_Method req <> "HEAD"
     /\ ~ setsHeader req "Accept-Encoding"
     /\ ~ setsHeader req "Range")
  /\ (forall cn' str', exists rest,
        trace (doRequest c cn' req str')
        = EvWriteRequest (req_Method req) (requestGzip c req) :: rest)
  /\ exists res,
       result (doRequest c cn req str) = (Some res, noRequestError)
       /\ if requestGzip c req && gzipEncoded hfs
          then res_Body res = Some (gzipReader responseBody)
               /\ res_Uncompressed res = true
               /\ res_ContentLength res = -1
               /\ forall key,
                    res_Header res !! key
                    = if bool_decide (key = "Content-Encoding" \/ key = "Content-Length")
                      then None else headerOf hfs key
          else res_Body res = Some responseBody
               /\ res_Uncompressed res = false
               /\ forall key, res_Header res !! key = headerOf hfs key.
Proof.
  intros Hdec Hst.
  split; [apply requestGzip_iff|].
  split; [intros cn' str'; apply doRequest_writes_first|].
  destruct (doRequest_success c cn req str Length hfs Hdec Hst) as (res1 & Hres1 & Hdo).
  eexists. rewrite Hdo. split; [reflexivity|].
  unfold bindBody.
  rewrite (bindBody_gzip_test c req hfs _ res1 Hres1).
  destruct (resolveContentLength_keeps req res1) as (Hh & _ & Hu).
  destruct (readHeaderFields_preserves _ _ _ Hres1) as (_ & Hu1 & _).
  destruct (requestGzip c req && gzipEncoded hfs).
  - cbn [setBody setContentLength setHeader res_Body res_Uncompressed
         res_ContentLength res_Header].
    repeat split. intros key.
    rewrite unzipped_header_lookup, Hh, (readHeaderFields_header _ _ _ _ Hres1).
    reflexivity.
  - cbn [setBody res_Body res_Uncompressed res_Header].
    split; [reflexivity|]. split; [rewrite Hu, Hu1; reflexivity|].
    intros key. rewrite Hh. apply (readHeaderFields_header _ _ _ _ Hres1).
Qed.

(** *** Server-initiated unidirectional streams *)

Lemma frameReads_parseNextFrame r handler :
  frameReads (trace (parseNextFrame r handler)) = 1%nat.
Proof.
  destruct r as [f | e | ft perr]; try reflexivity.
  destruct handler as [h|]; [|reflexivity].
  unfold parseNextFrame. rewrite !trace_bind, !trace_emit.
  destruct (fst (h ft)); reflexivity.
Qed.

Lemma frameReads_app t1 t2 : frameReads (t1 ++ t2) = (frameReads t1 + frameReads t2)%nat.
Proof. unfold frameReads. rewrite List.filter_app, length_app. reflexivity. Qed.

Lemma handleControlStream_trace c cn str :
  trace (handleControlStream c cn str)
  = (trace (parseNextFrame (rstr_frames str) (ufh c))
     ++ match result (parseNextFrame (rstr_frames str) (ufh c)) with
        | inr e => if isHijacked e then [] else [EvCloseWithError errorFrameError ""]
        | inl (settingsFrame Datagram _) =>
            if Datagram && EnableDatagram (opts c)
            then EvConnectionState
                 :: (if cs_SupportsDatagrams (conn_ConnectionState cn) then []
                     else [EvCloseWithError errorSettingsError
                             "missing QUIC Datagram support"])
            else []
        | inl _ => [EvCloseWithError errorMissingSettings ""]
        end)%list.
Proof.
  unfold handleControlStream. rewrite trace_bind. f_equal.
  destruct (result (parseNextFrame _ _)) as [[L|L|d o]|e]; try reflexivity.
  - destruct d; [|reflexivity]. cbn [negb andb].
    destruct (EnableDatagram (opts c)); [|reflexivity].
    rewrite trace_bind, trace_emit, trace_when.
    destruct (cs_SupportsDatagrams _); reflexivity.
  - destruct (isHijacked e); reflexivity.
Qed.

(** C5. On a stream that starts with the type of the control stream the
    client reads one frame, once.  When what it reads is a frame, the events
    of the goroutine are: reading the type, the read of the frame, and then,
    for a frame that is not a SETTINGS frame, closing the connection with
    "missing settings"; for a SETTINGS frame with the datagram flag, when the
    client enabled datagrams, asking for the connection state and, if the
    transport does not support datagrams, closing the connection with
    "settings error"; nothing otherwise. *)
Theorem control_stream c cn str (f : frame) :
  rstr_streamType str = inl streamTypeControlStream ->
  result (parseNextFrame (rstr_frames str) (ufh c)) = inl f ->
  frameReads (trace (handleUniStream c cn str)) = 1%nat
  /\ trace (handleUniStream c cn str)
     = (EvReadStreamType
        :: trace (parseNextFrame (rstr_frames str) (ufh c))
        ++ match f with
           | settingsFrame Datagram _ =>
               if Datagram && EnableDatagram (opts c)
               then EvConnectionState
                    :: (if cs_SupportsDatagrams (conn_ConnectionState cn) then []
                        else [EvCloseWithError errorSettingsError
                                "missing QUIC Datagram support"])
               else []
           | _ => [EvCloseWithError errorMissingSettings ""]
           end)%list.
Proof.
  intros Htype Hf.
  assert (Htr : trace (handleUniStream c cn str)
                = EvReadStreamType :: trace (handleControlStream c cn str)).
  { unfold handleUniStream. rewrite trace_bind, trace_emit, Htype.
    cbn [result emit fst]. rewrite Z.eqb_refl. reflexivity. }
  rewrite Htr, handleControlStream_trace, Hf. split; [|reflexivity].
  change (EvReadStreamType :: ?t) with ([EvReadStreamType] ++ t)%list.
  rewrite !frameReads_app, frameReads_parseNextFrame.
  destruct f as [L|L|d o]; try reflexivity.
  destruct (d && EnableDatagram (opts c)); [|reflexivity].
  destruct (cs_SupportsDatagrams _); reflexivity.
Qed.

(** C6, as the code has it. On a stream whose type is none of control,
    QPACK encoder and QPACK decoder, the goroutine reads the type and then
    does one thing: for a push stream it closes the connection with "id
    error"; for any other type it cancels the read side of the stream with
    "stream creation error", whether or not a [UniStreamHijacker] is
    configured, so that the hijacker is not called and the connection is not
    closed. *)
Theorem push_and_unrecognized_streams c cn str streamType :
  rstr_streamType str = inl streamType ->
  streamType <> streamTypeControlStream ->
  streamType <> streamTypeQPACKEncoderStream ->
  streamType <> streamTypeQPACKDecoderStream ->
  trace (handleUniStream c cn str)
  = [EvReadStreamType;
     if streamType =? streamTypePushStream
     then EvCloseWithError errorIDError ""
     else EvCancelRead errorStreamCreationError].
Proof.
  intros Htype Hc He Hd.
  apply Z.eqb_neq in Hc, He, Hd.
  unfold handleUniStream. rewrite trace_bind, trace_emit, Htype.
  cbn [result emit fst]. rewrite Hc, He, Hd. cbn [orb].
  destruct (streamType =? streamTypePushStream); reflexivity.
Qed.

(** *** The handshake and 0-RTT *)

Lemma dialOnceDo_events c : forallb isDialEvent (trace (dialOnceDo c)) = true.
Proof.
  unfold dialOnceDo, dial. destruct (dialOnce c); [reflexivity|].
  destruct (match dialer c with
            | Some d => d (hostname c) (tlsConf c) (config c)
            | None => dialAddr (hostname c) (tlsConf c) (config c)
            end);
    [|reflexivity].
  destruct (StreamHijacker (opts c)); reflexivity.
Qed.

Lemma doRequest_events c cn req str :
  forallb isExchangeEvent (trace (doRequest c cn req str)) = true.
Proof.
  unfold doRequest.
  rewrite (parseNextFrame_nil_eq _ _ eq_refl).
  destruct (str_WriteRequest str req _); [reflexivity|].
  destruct (result (parseNextFrame _ _)) as [[L|L|d o]|e]; try reflexivity.
  unfold bind, emit, ret.
  destruct (L >? _); [reflexivity|].
  destruct (str_ReadFull str L); [|reflexivity].
  destruct (decoder c _); [|reflexivity].
  destruct (readHeaderFields _ _); reflexivity.
Qed.

Lemma cleanup_events rerr : forallb isCleanup (trace (cleanup rerr)) = true.
Proof.
  unfold cleanup. destruct (err rerr); [|reflexivity].
  rewrite !trace_bind, !trace_when, trace_emit.
  destruct (negb _), (negb _); reflexivity.
Qed.

Lemma not_in_by_kind (kind : event -> bool) (t : list event) (ev : event) :
  forallb kind t = true -> kind ev = false -> ~ In ev t.
Proof.
  intros Hall Hev Hin. rewrite forallb_forall in Hall.
  apply Hall in Hin. congruence.
Qed.

(** C8. For a request of this client, once the connection is dialed: with
    the method "GET_0RTT", [RoundTrip] goes on to open the stream without
    the wait for the handshake, and the request is written with the method
    "GET"; with any other method it first waits for the handshake or the
    context, and if the context is done first it returns the error of the
    context and does nothing else: no stream is opened. *)
Theorem zero_rtt_and_handshake_wait c req c1 cn :
  authorityAddr "https" (hostnameFromRequest req) = hostname c ->
  result (dialOnceDo c) = c1 ->
  handshakeErr c1 = None ->
  conn c1 = Some cn ->
  let exchange (req1 : Request) : list event :=
    EvOpenStreamSync
    :: match conn_OpenStreamSync cn with
       | inr _ => []
       | inl str =>
           (EvGo goCancelWatcher
            :: trace (doRequest c1 cn req1 str)
            ++ trace (cleanup (snd (result (doRequest c1 cn req1 str)))))%list
       end in
  if String.eqb (req_Method req) MethodGet0RTT then
    trace (RoundTrip c req)
    = (trace (dialOnceDo c) ++ exchange (setMethod req http.MethodGet))%list
    /\ ~ In EvSelectHandshakeOrContext (trace (RoundTrip c req))
    /\ forall str, conn_OpenStreamSync cn = inl str ->
         exists gzip rest,
           trace (doRequest c1 cn (setMethod req http.MethodGet) str)
           = EvWriteRequest "GET" gzip :: rest
  else if doneBeforeHandshake (req_Context req) then
    trace (RoundTrip c req)
    = (trace (dialOnceDo c) ++ [EvSelectHandshakeOrContext])%list
    /\ ~ In EvOpenStreamSync (trace (RoundTrip c req))
    /\ result (RoundTrip c req) = (c1, Returns (None, Some (ctxErr (req_Context req))))
  else
    trace (RoundTrip c req)
    = (trace (dialOnceDo c) ++ EvSelectHandshakeOrContext :: exchange req)%list.
Proof.
  intros Hhost Hdial Hhs Hconn exchange.
  assert (Hgo : forall req1,
    trace (emit EvOpenStreamSync ;;;
           match conn_OpenStreamSync cn with
           | inl str =>
               emit (EvGo goCancelWatcher) ;;;
               r <- doRequest c1 cn req1 str ;;
               cleanup (snd r) ;;; ret (c1, Returns (fst r, err (snd r)))
           | inr e => ret (c1, Returns (None, Some e))
           end) = exchange req1).
  { intros req1. unfold exchange. rewrite trace_bind, trace_emit.
    cbn [app]. f_equal. destruct (conn_OpenStreamSync cn) as [str|e]; [|reflexivity].
    go. rewrite app_nil_r. reflexivity. }
  assert (Hnosel : ~ In EvSelectHandshakeOrContext (trace (dialOnceDo c))).
  { apply (not_in_by_kind isDialEvent); [apply dialOnceDo_events | reflexivity]. }
  unfold RoundTrip. rewrite Hhost, String.eqb_refl. cbn [negb].
  rewrite trace_bind, result_bind, Hdial, Hhs, Hconn.
  destruct (String.eqb (req_Method req) MethodGet0RTT) eqn:Em.
  - rewrite trace_bind, trace_ret. cbn [result ret fst app]. rewrite Hgo.
    split; [reflexivity|]. split.
    + intros Hin. apply in_app_or in Hin. destruct Hin as [Hin | Hin]; [auto|].
      unfold exchange in Hin. destruct Hin as [Hin | Hin]; [discriminate|].
      destruct (conn_OpenStreamSync cn) as [str|e]; [|destruct Hin].
      destruct Hin as [Hin | Hin]; [discriminate|].
      apply in_app_or in Hin. destruct Hin as [Hin | Hin].
      * revert Hin. apply (not_in_by_kind isExchangeEvent);
          [apply doRequest_events | reflexivity].
      * revert Hin. apply (not_in_by_kind isCleanup);
          [apply cleanup_events | reflexivity].
    + intros str _. destruct (doRequest_writes_first c1 cn (setMethod req http.MethodGet) str)
        as [rest Hrest].
      exists (requestGzip c1 (setMethod req http.MethodGet)), rest. exact Hrest.
  - rewrite trace_bind, result_bind, trace_bind, trace_emit, result_bind.
    cbn [result ret emit fst].
    destruct (doneBeforeHandshake (req_Context req)).
    + rewrite trace_ret. split; [reflexivity|]. split; [|reflexivity].
      intros Hin. apply in_app_or in Hin. destruct Hin as [Hin | Hin].
      * revert Hin. apply (not_in_by_kind isDialEvent);
          [apply dialOnceDo_events | reflexivity].
      * simpl in Hin. destruct Hin as [Hin | []]. discriminate.
    + rewrite trace_ret, Hgo. reflexivity.
Qed.

(** *** [Close] *)

(** C9. On a client without a connection, as [newClient] makes it and as
    it stays until the first dial, [Close] returns no error and asks nothing
    of the transport, and so does a second [Close].  On a dialed client
    [Close] closes the connection with the code "no error" and an empty
    reason and returns what the transport returns; a second [Close] does the
    same again.  No call panics. *)
Theorem Close_idempotent c host tlsConf0 opts0 conf0 dialer0 :
  match conn c with
  | None =>
      Close c = (Returns None, [])
      /\ (r1 <- Close c ;; r2 <- Close c ;; ret (r1, r2))
         = ((Returns None, Returns None), [])
  | Some cn =>
      let answer := conn_CloseWithError cn errorNoError "" in
      Close c = (Returns answer, [EvCloseWithError errorNoError ""])
      /\ (r1 <- Close c ;; r2 <- Close c ;; ret (r1, r2))
         = ((Returns answer, Returns answer),
            [EvCloseWithError errorNoError ""; EvCloseWithError errorNoError ""])
  end
  /\ match newClient host tlsConf0 opts0 conf0 dialer0 with
     | inl new =>
         conn new = None
         /\ Close new = (Returns None, [])
         /\ (r1 <- Close new ;; r2 <- Close new ;; ret (r1, r2))
            = ((Returns None, Returns None), [])
     | inr _ => True
     end.
Proof.
  split.
  - unfold Close. destruct (conn c) as [cn|]; split; reflexivity.
  - unfold newClient.
    destruct (negb _); [exact I|].
    unfold Close. cbn [conn]. repeat split.
Qed.

End Proofs.

(** ** The properties on concrete exchanges *)

Lemma exchanges_example (method : string) (str : Stream) dec :
  method <> MethodGet0RTT ->
  exchanges (P := rfc9114)
    (exClient exOpts (exConn str) dec) (exRequest method)
    (exDialed exOpts (exConn str) dec) (exConn str) (exRequest method) str.
Proof.
  intros Hm. unfold exchanges.
  split; [reflexivity|]. split; [reflexivity|]. split; [reflexivity|].
  split; [reflexivity|]. split; [|reflexivity].
  right. split; [exact Hm|]. split; reflexivity.
Defined.

Lemma decodes_example (method : string) (hfs : list HeaderField) :
  decodes (exDialed exOpts exHeadersConn (inl hfs))
    (exRequest method) exHeadersStream 0 hfs.
Proof.
  unfold decodes. split; [reflexivity|]. split; [reflexivity|].
  split; [vm_compute; discriminate|]. exists []. split; reflexivity.
Defined.

Lemma RoundTrip_error_cleanup_witness :
  let str := exStream (inputFrame (dataFrame 5)) in
  trace (RoundTrip (P := rfc9114) (exClient exOpts (exConn str) (inl [])) (exRequest "GET"))
  = [EvDial "example.org:443"; EvGo goSetupConn; EvGo goHandleUnidirectionalStreams;
     EvSelectHandshakeOrContext; EvOpenStreamSync; EvGo goCancelWatcher;
     EvWriteRequest "GET" true; EvParseNextFrame;
     EvCloseReqDone;
     EvCloseWithError 0x105 "expected first frame to be a HEADERS frame"].
Proof.
  intros str.
  refine (proj1 (@RoundTrip_error_cleanup rfc9114
                   (exClient exOpts (exConn str) (inl [])) (exRequest "GET")
                   (exDialed exOpts (exConn str) (inl [])) (exConn str)
                   (exRequest "GET") str
                   (errorString "expected first frame to be a HEADERS frame") _ _)).
  - apply exchanges_example. discriminate.
  - reflexivity.
Defined.

Lemma content_length_resolution_witness :
  exists res,
    result (exExchange "GET"
              [mkHeaderField ":status" "200"; mkHeaderField "content-length" "17"])
    = (Some res, noRequestError)
    /\ res_ContentLength res = 17.
Proof.
  pose (hfs := [mkHeaderField ":status" "200"; mkHeaderField "content-length" "17"]).
  destruct (@content_length_resolution rfc9114
              (exDialed exOpts exHeadersConn (inl hfs)) exHeadersConn
              (exRequest "GET") exHeadersStream 0 hfs)
    as (res & Hres & Hexempt & Hother).
  - apply decodes_example.
  - intros hf [<- | [<- | []]]; [intros _ | discriminate]. exists 200. reflexivity.
  - exists res. split; [exact Hres|].
    assert (Hcode : res_StatusCode res = 200).
    { vm_compute in Hres. injection Hres as <-. reflexivity. }
    rewrite Hother; [reflexivity|].
    rewrite Hcode. unfold lengthExempt.
    intros [H | [H | [H | [H _]]]]; [apply H; reflexivity | lia | lia | discriminate].
Defined.

Lemma first_frame_not_headers_witness :
  (let str := exStream (inputFrame (settingsFrame false ∅)) in
   trace (RoundTrip (P := rfc9114) (exClient exOpts (exConn str) (inl [])) (exRequest "GET"))
   = [EvDial "example.org:443"; EvGo goSetupConn; EvGo goHandleUnidirectionalStreams;
      EvSelectHandshakeOrContext; EvOpenStreamSync; EvGo goCancelWatcher;
      EvWriteRequest "GET" true; EvParseNextFrame; EvCloseReqDone;
      EvCloseWithError 0x105 "expected first frame to be a HEADERS frame"])
  /\
  (let str := exStream (inputError (errorString "unexpected EOF")) in
   trace (RoundTrip (P := rfc9114) (exClient exOpts (exConn str) (inl [])) (exRequest "GET"))
   = [EvDial "example.org:443"; EvGo goSetupConn; EvGo goHandleUnidirectionalStreams;
      EvSelectHandshakeOrContext; EvOpenStreamSync; EvGo goCancelWatcher;
      EvWriteRequest "GET" true; EvParseNextFrame; EvCloseReqDone;
      EvCancelWrite 0x106]).
Proof.
  split; intros str.
  - refine (proj2 (proj2 (@first_frame_not_headers rfc9114
              (exClient exOpts (exConn str) (inl [])) (exRequest "GET")
              (exDialed exOpts (exConn str) (inl [])) (exConn str)
              (exRequest "GET") str (inl (settingsFrame false ∅)) _ _ _ _ _ _))).
    + apply exchanges_example. discriminate.
    + reflexivity.
    + reflexivity.
    + intros Length. discriminate.
    + vm_compute. discriminate.
    + vm_compute. discriminate.
  - refine (proj2 (proj2 (@first_frame_not_headers rfc9114
              (exClient exOpts (exConn str) (inl [])) (exRequest "GET")
              (exDialed exOpts (exConn str) (inl [])) (exConn str)
              (exRequest "GET") str (inr (errorString "unexpected EOF")) _ _ _ _ _ _))).
    + apply exchanges_example. discriminate.
    + reflexivity.
    + reflexivity.
    + intros Length. discriminate.
    + vm_compute. discriminate.
    + vm_compute. discriminate.
Defined.

Lemma headers_frame_over_budget_witness :
  let str := exStream (inputFrame (headersFrame 10485761)) in
  trace (RoundTrip (P := rfc9114) (exClient exOpts (exConn str) (inl [])) (exRequest "GET"))
  = [EvDial "example.org:443"; EvGo goSetupConn; EvGo goHandleUnidirectionalStreams;
     EvSelectHandshakeOrContext; EvOpenStreamSync; EvGo goCancelWatcher;
     EvWriteRequest "GET" true; EvParseNextFrame; EvCloseReqDone;
     EvCancelWrite 0x106].
Proof.
  intros str.
  refine (proj1 (proj2 (@headers_frame_over_budget rfc9114
            (exClient exOpts (exConn str) (inl [])) (exRequest "GET")
            (exDialed exOpts (exConn str) (inl [])) (exConn str)
            (exRequest "GET") str 10485761 _ _ _ _ _ _))).
  - apply exchanges_example. discriminate.
  - reflexivity.
  - reflexivity.
  - vm_compute. reflexivity.
  - vm_compute. discriminate.
  - vm_compute. split; [discriminate | reflexivity].
Defined.

Lemma control_stream_witness :
  (trace (handleUniStream (P := rfc9114) (exDialed exOpts exHeadersConn (inl []))
            exHeadersConn (exUniStream 0 (inputFrame (dataFrame 3))))
   = [EvReadStreamType; EvParseNextFrame; EvCloseWithError 0x10a ""])
  /\
  (trace (handleUniStream (P := rfc9114) (exDialed exOpts exHeadersConn (inl []))
            exHeadersConn (exUniStream 0 (inputFrame (settingsFrame true ∅))))
   = [EvReadStreamType; EvParseNextFrame; EvConnectionState;
      EvCloseWithError 0x109 "missing QUIC Datagram support"]).
Proof.
  split.
  - refine (proj2 (@control_stream rfc9114 (exDialed exOpts exHeadersConn (inl []))
              exHeadersConn (exUniStream 0 (inputFrame (dataFrame 3)))
              (dataFrame 3) _ _)); reflexivity.
  - refine (proj2 (@control_stream rfc9114 (exDialed exOpts exHeadersConn (inl []))
              exHeadersConn (exUniStream 0 (inputFrame (settingsFrame true ∅)))
              (settingsFrame true ∅) _ _)); reflexivity.
Defined.

Lemma push_and_unrecognized_streams_witness :
  (trace (handleUniStream (P := rfc9114) (exDialed exHijackOpts exHeadersConn (inl []))
            exHeadersConn (exUniStream 0x21 (inputFrame (dataFrame 3))))
   = [EvReadStreamType; EvCancelRead 0x103])
  /\
  (trace (handleUniStream (P := rfc9114) (exDialed exOpts exHeadersConn (inl []))
            exHeadersConn (exUniStream 1 (inputFrame (dataFrame 3))))
   = [EvReadStreamType; EvCloseWithError 0x108 ""]).
Proof.
  split.
  - refine (@push_and_unrecognized_streams rfc9114
              (exDialed exHijackOpts exHeadersConn (inl [])) exHeadersConn
              (exUniStream 0x21 (inputFrame (dataFrame 3))) 0x21 _ _ _ _);
      [reflexivity | vm_compute; discriminate ..].
  - refine (@push_and_unrecognized_streams rfc9114
              (exDialed exOpts exHeadersConn (inl [])) exHeadersConn
              (exUniStream 1 (inputFrame (dataFrame 3))) 1 _ _ _ _);
      [reflexivity | vm_compute; discriminate ..].
Defined.

(** C6, as the specification has it, fails: with a [UniStreamHijacker]
    configured, a stream of the unrecognized type 0x21 is not handed to the
    hijacker; its read side is cancelled with "stream creation error". *)
Lemma unrecognized_stream_not_delegated :
  let c := exDialed exHijackOpts exHeadersConn (inl []) in
  let str := exUniStream 0x21 (inputUnknown 0x40 (errorString "unknown frame")) in
  let events := trace (handleUniStream (P := rfc9114) c exHeadersConn str) in
  is_Some (UniStreamHijacker (opts c))
  /\ ~ In 0x21 [@streamTypeControlStream rfc9114; @streamTypePushStream rfc9114;
               @streamTypeQPACKEncoderStream rfc9114;
               @streamTypeQPACKDecoderStream rfc9114]
  /\ In (EvCancelRead (@errorStreamCreationError rfc9114)) events
  /\ ~ (exists ft, In (EvUnknownFrameHandler ft) events).
Proof.
  cbv zeta. split; [eexists; reflexivity|]. split; [|split].
  - vm_compute. intros [H | [H | [H | [H | []]]]]; discriminate.
  - vm_compute. right. left. reflexivity.
  - intros [ft Hin]. vm_compute in Hin.
    destruct Hin as [H | [H | []]]; discriminate.
Qed.

Lemma transparent_gzip_witness :
  exists res,
    result (exExchange "GET"
              [mkHeaderField ":status" "200"; mkHeaderField "content-encoding" "gzip";
               mkHeaderField "content-length" "17";
               mkHeaderField "content-type" "text/html"])
    = (Some res, noRequestError)
    /\ res_Body res = Some (gzipReader responseBody)
    /\ res_ContentLength res = -1
    /\ res_Header res !! "Content-Encoding" = None
    /\ res_Header res !! "Content-Length" = None
    /\ res_Header res !! "Content-Type" = Some ["text/html"].
Proof.
  pose (hfs := [mkHeaderField ":status" "200"; mkHeaderField "content-encoding" "gzip";
                mkHeaderField "content-length" "17";
                mkHeaderField "content-type" "text/html"]).
  destruct (@transparent_gzip rfc9114
              (exDialed exOpts exHeadersConn (inl hfs)) exHeadersConn
              (exRequest "GET") exHeadersStream 0 hfs)
    as (_ & _ & res & Hres & Hgzip).
  - apply decodes_example.
  - intros hf [<- | [<- | [<- | [<- | []]]]]; try discriminate.
    intros _. exists 200. reflexivity.
  - change (requestGzip (exDialed exOpts exHeadersConn (inl hfs)) (exRequest "GET")
            && gzipEncoded hfs) with true in Hgzip.
    destruct Hgzip as (Hbody & _ & Hlen & Hheader).
    exists res. split; [exact Hres|]. split; [exact Hbody|]. split; [exact Hlen|].
    split; [|split]; rewrite Hheader; reflexivity.
Defined.

Lemma zero_rtt_and_handshake_wait_witness :
  (trace (RoundTrip (P := rfc9114)
            (exClient exOpts exHeadersConn (inl [mkHeaderField ":status" "200"]))
            (exRequest "GET_0RTT"))
   = [EvDial "example.org:443"; EvGo goSetupConn; EvGo goHandleUnidirectionalStreams;
      EvOpenStreamSync; EvGo goCancelWatcher; EvWriteRequest "GET" true;
      EvParseNextFrame; EvMake 0; EvReadFull 0; EvDecodeFull; EvConnectionState])
  /\
  (let req := mkRequest "GET" "example.org:443" ∅ exContextDone in
   let c := exClient exOpts exHeadersConn (inl []) in
   trace (RoundTrip (P := rfc9114) c req)
   = [EvDial "example.org:443"; EvGo goSetupConn; EvGo goHandleUnidirectionalStreams;
      EvSelectHandshakeOrContext]
   /\ result (RoundTrip (P := rfc9114) c req)
      = (exDialed exOpts exHeadersConn (inl []),
         Returns (None, Some (errorString "context canceled")))).
Proof.
  split.
  - refine (proj1 (@zero_rtt_and_handshake_wait rfc9114
              (exClient exOpts exHeadersConn (inl [mkHeaderField ":status" "200"]))
              (exRequest "GET_0RTT")
              (exDialed exOpts exHeadersConn (inl [mkHeaderField ":status" "200"]))
              exHeadersConn _ _ _ _)); reflexivity.
  - intros req c.
    pose proof (@zero_rtt_and_handshake_wait rfc9114 c req
                  (exDialed exOpts exHeadersConn (inl [])) exHeadersConn
                  eq_refl eq_refl eq_refl eq_refl) as H.
    cbv zeta in H.
    change (String.eqb (req_Method req) MethodGet0RTT) with false in H.
    change (doneBeforeHandshake (req_Context req)) with true in H.
    cbv iota in H. destruct H as (Htrace & _ & Hresult).
    split; [exact Htrace | exact Hresult].
Defined.

Lemma malformed_header_block_witness :
  (let c := exClient exOpts exHeadersConn (inr (errorString "decoding error: invalid index")) in
   trace (RoundTrip (P := rfc9114) c (exRequest "GET"))
   = [EvDial "example.org:443"; EvGo goSetupConn; EvGo goHandleUnidirectionalStreams;
      EvSelectHandshakeOrContext; EvOpenStreamSync; EvGo goCancelWatcher;
      EvWriteRequest "GET" true; EvParseNextFrame; EvMake 0; EvReadFull 0;
      EvDecodeFull; EvCloseReqDone;
      EvCloseWithError 0x101 "decoding error: invalid index"])
  /\
  (let c := exClient exOpts exHeadersConn (inl [mkHeaderField ":status" "abc"]) in
   trace (RoundTrip (P := rfc9114) c (exRequest "GET"))
   = [EvDial "example.org:443"; EvGo goSetupConn; EvGo goHandleUnidirectionalStreams;
      EvSelectHandshakeOrContext; EvOpenStreamSync; EvGo goCancelWatcher;
      EvWriteRequest "GET" true; EvParseNextFrame; EvMake 0; EvReadFull 0;
      EvDecodeFull; EvConnectionState; EvCloseReqDone; EvCancelWrite 0x101]).
Proof.
  split; intros c.
  - refine (proj2 (proj2 (@malformed_header_block rfc9114 c (exRequest "GET")
              (exDialed exOpts exHeadersConn (inr (errorString "decoding error: invalid index")))
              exHeadersConn (exRequest "GET") exHeadersStream 0 []
              (inr (errorString "decoding error: invalid index")) _ _ _ _ _ _ _ _))).
    + apply exchanges_example. discriminate.
    + reflexivity.
    + reflexivity.
    + vm_compute. discriminate.
    + reflexivity.
    + reflexivity.
    + exact I.
    + vm_compute. discriminate.
  - refine (proj2 (proj2 (@malformed_header_block rfc9114 c (exRequest "GET")
              (exDialed exOpts exHeadersConn (inl [mkHeaderField ":status" "abc"]))
              exHeadersConn (exRequest "GET") exHeadersStream 0 []
              (inl [mkHeaderField ":status" "abc"]) _ _ _ _ _ _ _ _))).
    + apply exchanges_example. discriminate.
    + reflexivity.
    + reflexivity.
    + vm_compute. discriminate.
    + reflexivity.
    + reflexivity.
    + exists (mkHeaderField ":status" "abc").
      split; [left; reflexivity|]. split; reflexivity.
    + vm_compute. discriminate.
Defined.

(** *** The scenarios of the specification *)

Example scenario_204_with_content_length :
  option_map res_ContentLength
    (fst (result (exExchange "GET"
                    [mkHeaderField ":status" "204"; mkHeaderField "content-length" "17"])))
  = Some 0.
Proof. vm_compute. reflexivity. Qed.

Example scenario_two_content_lengths :
  option_map res_ContentLength
    (fst (result (exExchange "GET"
                    [mkHeaderField ":status" "200"; mkHeaderField "content-length" "10";
                     mkHeaderField "content-length" "20"])))
  = Some (-1).
Proof. vm_compute. reflexivity. Qed.

Example scenario_malformed_content_length :
  option_map res_ContentLength
    (fst (result (exExchange "GET"
                    [mkHeaderField ":status" "200"; mkHeaderField "content-length" "1x"])))
  = Some (-1).
Proof. vm_compute. reflexivity. Qed.

Example scenario_control_stream_unknown_frame_hijacked :
  trace (handleUniStream (P := rfc9114) (exDialed exHijackOpts exHeadersConn (inl []))
           exHeadersConn
           (exUniStream 0 (inputUnknown 0x40 (errorString "unknown frame"))))
  = [EvReadStreamType; EvParseNextFrame; EvUnknownFrameHandler 0x40].
Proof. vm_compute. reflexivity. Qed.

Example scenario_close_never_dialed :
  Close (P := rfc9114) (exClient exOpts exHeadersConn (inl [])) = (Returns None, [])
  /\ match newClient (P := rfc9114) "example.org:443" None exOpts None None with
     | inl c => Close (P := rfc9114) c = (Returns None, [])
     | inr _ => False
     end.
Proof. split; reflexivity. Qed.

Example scenario_two_versions :
  newClient (P := rfc9114) "example.org:443" None exOpts
    (Some {| Versions := [1; 2]; MaxIncomingStreams := 0; KeepAlive := false;
             EnableDatagrams := false |}) None
  = inr (errorString
           "can only use a single QUIC version for dialing a HTTP/3 connection").
Proof. reflexivity. Qed.

Example canonical_keys :
  textproto.CanonicalMIMEHeaderKey "content-length" = "Content-Length"
  /\ textproto.CanonicalMIMEHeaderKey "ACCEPT-encoding" = "Accept-Encoding"
  /\ textproto.CanonicalMIMEHeaderKey ":status" = ":status"
  /\ textproto.CanonicalMIMEHeaderKey "x y" = "x y".
Proof. repeat split; reflexivity. Qed.

Example parse_int_examples :
  strconv.ParseInt "17" = inl 17
  /\ strconv.ParseInt "-5" = inl (-5)
  /\ strconv.ParseInt "+5" = inl 5
  /\ strconv.ParseInt "1x" = inr strconv.ErrSyntax
  /\ strconv.ParseInt "9223372036854775807" = inl 9223372036854775807
  /\ strconv.ParseInt "9223372036854775808" = inr strconv.ErrRange
  /\ strconv.ParseInt "-9223372036854775808" = inl (-9223372036854775808)
  /\ strconv.ParseInt "" = inr strconv.ErrSyntax
  /\ strconv.FormatUint 10485760 = "10485760".
Proof. repeat split; reflexivity. Qed.

(** ** The rest of [client.go]: proofs *)

Section RestProofs.

Context {P : Package}.

Lemma result_pair {A : Type} (a : A) (t : list event) : result (a, t) = a.
Proof. reflexivity. Qed.

Lemma trace_pair {A : Type} (a : A) (t : list event) : trace (a, t) = t.
Proof. reflexivity. Qed.

Ltac run :=
  repeat (progress rewrite ?trace_bind, ?result_bind, ?trace_ret, ?result_ret,
                           ?trace_emit, ?trace_when, ?result_pair, ?trace_pair).

(** *** [dial] and the paths through [RoundTrip] *)

Lemma dial_eq c :
  dial c
  = match dialAnswer c with
    | inr e =>
        (({| tlsConf := tlsConf c; config := config c; opts := opts c;
             dialOnce := dialOnce c; dialer := dialer c;
             handshakeErr := handshakeErr c; decoder := decoder c;
             hostname := hostname c; conn := None |}, Some e),
         [EvDial (hostname c)])
    | inl cn =>
        (({| tlsConf := tlsConf c; config := config c; opts := opts c;
             dialOnce := dialOnce c; dialer := dialer c;
             handshakeErr := handshakeErr c; decoder := decoder c;
             hostname := hostname c; conn := Some cn |}, None),
         (EvDial (hostname c) :: EvGo goSetupConn
          :: (if bool_decide (is_Some (StreamHijacker (opts c)))
              then [EvGo goHandleBidirectionalStreams] else [])
          ++ [EvGo goHandleUnidirectionalStreams])%list)
    end.
Proof.
  unfold dial, dialAnswer.
  destruct (match dialer c with
            | Some d => d (hostname c) (tlsConf c) (config c)
            | None => dialAddr (hostname c) (tlsConf c) (config c)
            end); [|reflexivity].
  destruct (StreamHijacker (opts c)); reflexivity.
Qed.

Lemma dialOnceDo_done c : dialOnce c = true -> dialOnceDo c = (c, []).
Proof. intros H. unfold dialOnceDo. rewrite H. reflexivity. Qed.

Lemma dialOnceDo_first c :
  dialOnce c = false ->
  let c1 := result (dialOnceDo c) in
  dialOnce c1 = true
  /\ opts c1 = opts c /\ hostname c1 = hostname c /\ decoder c1 = decoder c
  /\ match dialAnswer c with
     | inr e => handshakeErr c1 = Some e /\ conn c1 = None
                /\ trace (dialOnceDo c) = [EvDial (hostname c)]
     | inl cn => handshakeErr c1 = None /\ conn c1 = Some cn
                 /\ dials (trace (dialOnceDo c)) = 1%nat
     end.
Proof.
  intros H. unfold dialOnceDo. rewrite H, dial_eq.
  destruct (dialAnswer c) as [cn|e]; cbn; [|auto 10].
  destruct (StreamHijacker (opts c)); cbn; auto 10.
Qed.

Lemma dialOnceDo_keeps c :
  let c1 := result (dialOnceDo c) in
  dialOnce c1 = true /\ hostname c1 = hostname c /\ opts c1 = opts c.
Proof.
  destruct (dialOnce c) eqn:E.
  - rewrite (dialOnceDo_done c E). cbn. auto.
  - destruct (dialOnceDo_first c E) as (H1 & H2 & H3 & _). cbn zeta. auto.
Qed.

(** [RoundTrip], path by path. *)
Lemma RoundTrip_paths c req :
  let c1 := result (dialOnceDo c) in
  let dialed := trace (dialOnceDo c) in
  let zeroRTT := String.eqb (req_Method req) MethodGet0RTT in
  let req1 := if zeroRTT then setMethod req http.MethodGet else req in
  let wait := if zeroRTT then [] else [EvSelectHandshakeOrContext] in
  RoundTrip c req
  = if negb (String.eqb (authorityAddr "https" (hostnameFromRequest req)) (hostname c))
    then ((c, Returns (None, Some (errorString
             ("http3 client BUG: RoundTrip called for the wrong client (expected "
              ++ hostname c ++ ", got " ++ req_Host req ++ ")")))), [])
    else
      match handshakeErr c1 with
      | Some e => ((c1, Returns (None, Some e)), dialed)
      | None =>
          match conn c1 with
          | None => ((c1, Panics), dialed)
          | Some cn =>
              if negb zeroRTT && doneBeforeHandshake (req_Context req)
              then ((c1, Returns (None, Some (ctxErr (req_Context req)))),
                    (dialed ++ wait)%list)
              else
                match conn_OpenStreamSync cn with
                | inr e =>
                    ((c1, Returns (None, Some e)),
                     (dialed ++ wait ++ [EvOpenStreamSync])%list)
                | inl str =>
                    let r := doRequest c1 cn req1 str in
                    ((c1, Returns (fst (result r), err (snd (result r)))),
                     (dialed ++ wait ++ [EvOpenStreamSync; EvGo goCancelWatcher]
                      ++ trace r ++ trace (cleanup (snd (result r))))%list)
                end
          end
      end.
Proof.
  cbv zeta.
  assert (Hwait : forall b : bool,
    (if b then ret false
     else emit EvSelectHandshakeOrContext ;;; ret (doneBeforeHandshake (req_Context req)))
    = (negb b && doneBeforeHandshake (req_Context req),
       if b then [] else [EvSelectHandshakeOrContext])).
  { intros []; reflexivity. }
  rewrite (M_eta (RoundTrip c req)). unfold RoundTrip.
  destruct (negb (String.eqb _ (hostname c))); [reflexivity|].
  rewrite result_bind, trace_bind.
  destruct (handshakeErr (result (dialOnceDo c))) as [e|];
    [rewrite trace_ret, app_nil_r; reflexivity|].
  destruct (conn (result (dialOnceDo c))) as [cn|];
    [|rewrite trace_ret, app_nil_r; reflexivity].
  rewrite Hwait, result_bind, trace_bind, result_pair, trace_pair.
  destruct (negb _ && doneBeforeHandshake (req_Context req));
    [rewrite trace_ret, result_ret, app_nil_r; reflexivity|].
  destruct (conn_OpenStreamSync cn) as [str|e]; run.
  - rewrite <- ?app_assoc, ?app_nil_r. reflexivity.
  - rewrite <- ?app_assoc, ?app_nil_r. reflexivity.
Qed.

Lemma RoundTrip_state c req :
  fst (result (RoundTrip c req))
  = if String.eqb (authorityAddr "https" (hostnameFromRequest req)) (hostname c)
    then result (dialOnceDo c) else c.
Proof.
  rewrite RoundTrip_paths.
  destruct (String.eqb _ (hostname c)); cbn [negb]; [|reflexivity].
  destruct (handshakeErr _); [reflexivity|].
  destruct (conn _) as [cn|]; [|reflexivity].
  destruct (negb _ && _); [reflexivity|].
  destruct (conn_OpenStreamSync cn); reflexivity.
Qed.

Lemma dials_app t1 t2 : dials (t1 ++ t2) = (dials t1 + dials t2)%nat.
Proof. unfold dials. rewrite List.filter_app, length_app. reflexivity. Qed.

Lemma dials_none (kind : event -> bool) t :
  forallb kind t = true ->
  (forall addr, kind (EvDial addr) = false) ->
  dials t = 0%nat.
Proof.
  intros Hall Hk. unfold dials.
  induction t as [|ev t IH]; [reflexivity|].
  cbn in Hall. apply andb_true_iff in Hall. destruct Hall as [Hev Ht].
  destruct ev; cbn; try (apply IH, Ht). rewrite Hk in Hev. discriminate.
Qed.

Lemma dials_dialOnceDo c :
  dials (trace (dialOnceDo c)) = if dialOnce c then 0%nat else 1%nat.
Proof.
  unfold dialOnceDo. destruct (dialOnce c); [reflexivity|].
  rewrite trace_bind, trace_ret, app_nil_r, dial_eq.
  destruct (dialAnswer c); [|reflexivity].
  destruct (bool_decide _); reflexivity.
Qed.

Lemma dials_exchange c cn req str :
  dials (trace (doRequest c cn req str)
         ++ trace (cleanup (snd (result (doRequest c cn req str))))) = 0%nat.
Proof.
  rewrite dials_app.
  rewrite (dials_none isExchangeEvent) by (apply doRequest_events || reflexivity).
  rewrite (dials_none isCleanup) by (apply cleanup_events || reflexivity).
  reflexivity.
Qed.

Lemma dials_RoundTrip c req :
  dials (trace (RoundTrip c req))
  = if String.eqb (authorityAddr "https" (hostnameFromRequest req)) (hostname c)
       && negb (dialOnce c)
    then 1%nat else 0%nat.
Proof.
  rewrite RoundTrip_paths.
  destruct (String.eqb _ (hostname c)); cbn [negb andb]; [|reflexivity].
  assert (Hw : dials (if String.eqb (req_Method req) MethodGet0RTT then []
                      else [EvSelectHandshakeOrContext]) = 0%nat)
    by (destruct (String.eqb _ _); reflexivity).
  assert (Hd : dials (trace (dialOnceDo c)) = if negb (dialOnce c) then 1%nat else 0%nat)
    by (rewrite dials_dialOnceDo; destruct (dialOnce c); reflexivity).
  destruct (handshakeErr _); [exact Hd|].
  destruct (conn _) as [cn|]; [|exact Hd].
  destruct (negb _ && doneBeforeHandshake _).
  { cbn [trace snd]. rewrite dials_app, Hw, Hd. lia. }
  destruct (conn_OpenStreamSync cn) as [str|e]; cbn [trace snd].
  - rewrite !dials_app, Hw, Hd.
    change [EvOpenStreamSync; EvGo goCancelWatcher]
      with ([EvOpenStreamSync; EvGo goCancelWatcher] ++ [])%list.
    rewrite <- dials_app, dials_exchange. cbn. lia.
  - rewrite !dials_app, Hw, Hd. cbn. lia.
Qed.

(** X1. A request for another host is refused on the spot: [RoundTrip]
    returns its error, leaves the client as it is and asks nothing of
    anybody.  A request for the host of the client dials exactly when the
    client has not dialed before. *)
Theorem RoundTrip_dials_when c req :
  if String.eqb (authorityAddr "https" (hostnameFromRequest req)) (hostname c)
  then dials (trace (RoundTrip c req)) = (if dialOnce c then 0%nat else 1%nat)
       /\ dialOnce (fst (result (RoundTrip c req))) = true
  else RoundTrip c req
       = ((c, Returns (None, Some (errorString
             ("http3 client BUG: RoundTrip called for the wrong client (expected "
              ++ hostname c ++ ", got " ++ req_Host req ++ ")")))), []).
Proof.
  pose proof (dials_RoundTrip c req) as Hd.
  pose proof (RoundTrip_state c req) as Hs.
  destruct (String.eqb _ (hostname c)) eqn:Eh.
  - split.
    + rewrite Hd. destruct (dialOnce c); reflexivity.
    + rewrite Hs. apply dialOnceDo_keeps.
  - rewrite RoundTrip_paths, Eh. reflexivity.
Qed.

Lemma roundTrips_dials c reqs :
  (dials (trace (roundTrips c reqs)) <= if dialOnce c then 0 else 1)%nat.
Proof.
  revert c. induction reqs as [|req rest IH]; intros c.
  - cbn. destruct (dialOnce c); lia.
  - cbn [roundTrips]. rewrite trace_bind, dials_app, dials_RoundTrip.
    specialize (IH (fst (result (RoundTrip c req)))).
    rewrite RoundTrip_state in *.
    destruct (String.eqb _ (hostname c)); cbn [andb negb] in *.
    + destruct (dialOnceDo_keeps c) as (Hone & _). cbv zeta in Hone.
      rewrite Hone in IH. destruct (dialOnce c); cbn; lia.
    + destruct (dialOnce c); cbn; lia.
Qed.

(** X2. However many requests are made on a client, one after another, the
    client dials at most once, and not at all when it had dialed before. *)
Theorem roundTrips_dial_once c reqs :
  (dials (trace (roundTrips c reqs)) <= 1)%nat
  /\ (if dialOnce c then dials (trace (roundTrips c reqs)) = 0%nat else True).
Proof.
  pose proof (roundTrips_dials c reqs) as H.
  destruct (dialOnce c); split; auto; lia.
Qed.

(** X3. When the dial of the first request fails, [RoundTrip] returns the
    error of the dialer after the dial alone; from then on every request for
    the host of the client gets the same error and nothing is asked of
    anybody, no second dial either, and [Close] has nothing to close. *)
Theorem dial_failure_is_remembered c req e :
  forClient c req ->
  dialOnce c = false ->
  dialAnswer c = inr e ->
  let c1 := fst (result (RoundTrip c req)) in
  RoundTrip c req = ((c1, Returns (None, Some e)), [EvDial (hostname c)])
  /\ (forall req', forClient c1 req' ->
        RoundTrip c1 req' = ((c1, Returns (None, Some e)), []))
  /\ Close c1 = (Returns None, []).
Proof.
  intros Hhost Hfirst Hans c1.
  assert (Hc1 : c1 = result (dialOnceDo c)).
  { unfold c1. rewrite RoundTrip_state. unfold forClient in Hhost.
    rewrite Hhost, String.eqb_refl. reflexivity. }
  destruct (dialOnceDo_first c Hfirst) as (Hone & _ & Hname & _ & Hdial).
  rewrite Hans in Hdial. destruct Hdial as (Herr & Hconn & Htr).
  cbv zeta in *. rewrite <- Hc1 in *.
  split; [|split].
  - rewrite RoundTrip_paths. unfold forClient in Hhost.
    rewrite Hhost, String.eqb_refl. cbn [negb].
    rewrite <- Hc1, Herr, Htr. reflexivity.
  - intros req' Hhost'. rewrite RoundTrip_paths. unfold forClient in Hhost'.
    rewrite Hhost', String.eqb_refl. cbn [negb].
    rewrite (dialOnceDo_done c1 Hone). cbn [result trace fst snd].
    rewrite Herr. reflexivity.
  - unfold Close. rewrite Hconn. reflexivity.
Qed.

(** *** The invariant of the client and what [RoundTrip] returns *)

Lemma dialOnceDo_wellFormed c : wellFormed c -> wellFormed (result (dialOnceDo c)).
Proof.
  intros Hwf. destruct (dialOnce c) eqn:E.
  - rewrite (dialOnceDo_done c E). exact Hwf.
  - destruct (dialOnceDo_first c E) as (_ & _ & _ & _ & Hdial).
    cbv zeta in Hdial. intros _ Hnone.
    destruct (dialAnswer c) as [cn|e].
    + destruct Hdial as (_ & -> & _). discriminate.
    + destruct Hdial as (Herr & _). congruence.
Qed.

Lemma RoundTrip_wellFormed c req :
  wellFormed c -> wellFormed (fst (result (RoundTrip c req))).
Proof.
  intros Hwf. rewrite RoundTrip_state.
  destruct (String.eqb _ _); [apply dialOnceDo_wellFormed|]; exact Hwf.
Qed.

Lemma newClient_wellFormed host tlsConf0 opts0 conf0 dialer0 c :
  newClient host tlsConf0 opts0 conf0 dialer0 = inl c -> wellFormed c.
Proof.
  unfold newClient. destruct (negb _); [discriminate|].
  intros [= <-] H. discriminate.
Qed.

(** X4. Once [dialOnce] has run without an error the client has a
    connection.  This holds of the client [newClient] makes and still holds
    after any number of requests. *)
Theorem wellFormed_invariant c reqs host tlsConf0 opts0 conf0 dialer0 :
  wellFormed c ->
  wellFormed (result (roundTrips c reqs))
  /\ match newClient host tlsConf0 opts0 conf0 dialer0 with
     | inl new => wellFormed new /\ wellFormed (result (roundTrips new reqs))
     | inr _ => True
     end.
Proof.
  assert (Hall : forall c0, wellFormed c0 -> wellFormed (result (roundTrips c0 reqs))).
  { induction reqs as [|req rest IH]; intros c0 Hwf; [exact Hwf|].
    cbn [roundTrips]. rewrite result_bind. apply IH, RoundTrip_wellFormed, Hwf. }
  intros Hwf. split; [apply Hall, Hwf|].
  destruct (newClient _ _ _ _ _) as [new|] eqn:E; [|exact I].
  pose proof (newClient_wellFormed _ _ _ _ _ _ E) as Hnew. auto.
Qed.


(** X6. [RoundTrip] closes the done channel, cancels a side of the stream
    or closes the connection only after an exchange that failed: if one of
    these events is among those of a call, the call returned an error and no
    response, the watcher had been started, and the done channel is among
    what was closed. *)
Theorem RoundTrip_cleans_up_only_after_failure c req ev :
  In ev (trace (RoundTrip c req)) ->
  isCleanup ev = true ->
  (exists c1 e, result (RoundTrip c req) = (c1, Returns (None, Some e)))
  /\ In (EvGo goCancelWatcher) (trace (RoundTrip c req))
  /\ In EvCloseReqDone (trace (RoundTrip c req)).
Proof.
  rewrite RoundTrip_paths. cbv zeta. intros Hin Hev.
  assert (Hno : forall t, forallb (fun e0 => negb (isCleanup e0)) t = true -> ~ In ev t).
  { intros t Ht Hint. rewrite forallb_forall in Ht. apply Ht in Hint.
    rewrite Hev in Hint. discriminate. }
  assert (Hwait : forallb (fun e0 => negb (isCleanup e0))
                    (if String.eqb (req_Method req) MethodGet0RTT then []
                     else [EvSelectHandshakeOrContext]) = true)
    by (destruct (String.eqb (req_Method req) MethodGet0RTT); reflexivity).
  pose proof (dialOnceDo_no_cleanup c) as Hdial.
  destruct (String.eqb _ (hostname c)); cbn [negb] in *; [|destruct Hin].
  destruct (handshakeErr _); [exfalso; exact (Hno _ Hdial Hin)|].
  destruct (conn _) as [cn|]; [|exfalso; exact (Hno _ Hdial Hin)].
  destruct (negb _ && _).
  { exfalso. revert Hin. apply Hno. cbn [trace snd].
    rewrite forallb_app, Hdial, Hwait. reflexivity. }
  destruct (conn_OpenStreamSync cn) as [str|e].
  2:{ exfalso. revert Hin. apply Hno. cbn [trace snd].
      rewrite !forallb_app, Hdial, Hwait. reflexivity. }
  cbv zeta in *. rewrite trace_pair in *. rewrite result_pair.
  set (r := doRequest _ cn _ str) in *.
  assert (Hclean : In ev (trace (cleanup (snd (result r))))).
  { repeat (apply in_app_or in Hin; destruct Hin as [Hin | Hin]);
      try (exfalso; revert Hin; apply Hno;
           first [exact Hdial | exact Hwait | reflexivity | apply doRequest_no_cleanup]).
    exact Hin. }
  destruct (err (snd (result r))) as [e|] eqn:Ee.
  - split; [|split].
    + exists (result (dialOnceDo c)), e.
      destruct (doRequest_classified (result (dialOnceDo c)) cn
                  (if String.eqb (req_Method req) MethodGet0RTT
                   then setMethod req http.MethodGet else req) str)
        as [[res Hr] | [(code & e0 & Hr) | (code & e0 & Hr)]];
        cbv zeta in Hr; fold r in Hr; rewrite Hr in *; cbn in *; congruence.
    + apply in_or_app. right. apply in_or_app. right.
      apply in_or_app. left. right. left. reflexivity.
    + apply in_or_app. right. apply in_or_app. right.
      apply in_or_app. right. apply in_or_app. right.
      rewrite (trace_cleanup _ _ Ee). left. reflexivity.
  - exfalso. unfold cleanup in Hclean. rewrite Ee in Hclean. destruct Hclean.
Qed.

(** *** The steps of [doRequest] *)

(** [doRequest], outcome by outcome. *)
Lemma doRequest_cases c cn req str :
  let W := EvWriteRequest (req_Method req) (requestGzip c req) in
  let tls := cs_TLS (conn_ConnectionState cn) in
  (exists e, doRequest c cn req str
             = ((None, newStreamError errorInternalError e), [W]))
  \/ (exists e, doRequest c cn req str
                = ((None, newStreamError errorFrameError e), [W; EvParseNextFrame]))
  \/ doRequest c cn req str
     = ((None, newConnError errorFrameUnexpected
                 (errorString "expected first frame to be a HEADERS frame")),
        [W; EvParseNextFrame])
  \/ (exists Length e,
        Length <= maxHeaderBytes c
        /\ doRequest c cn req str
           = ((None, newStreamError errorRequestIncomplete e),
              [W; EvParseNextFrame; EvMake Length; EvReadFull Length]))
  \/ (exists Length e,
        Length <= maxHeaderBytes c
        /\ doRequest c cn req str
           = ((None, newConnError errorGeneralProtocolError e),
              [W; EvParseNextFrame; EvMake Length; EvReadFull Length; EvDecodeFull]))
  \/ (exists Length,
        Length <= maxHeaderBytes c
        /\ doRequest c cn req str
           = ((None, malformedStatus),
              exchangeSteps (req_Method req) (requestGzip c req) Length))
  \/ (exists Length hfs res1,
        decodes c req str Length hfs
        /\ readHeaderFields hfs (emptyResponse tls) = inl res1
        /\ doRequest c cn req str
           = ((Some (bindBody (requestGzip c req) responseBody
                       (resolveContentLength req res1)), noRequestError),
              exchangeSteps (req_Method req) (requestGzip c req) Length)).
Proof.
  cbv zeta.
  destruct (str_WriteRequest str req (requestGzip c req)) as [e|] eqn:Hw.
  { left. exists e. apply doRequest_write_fails, Hw. }
  right.
  destruct (result (parseNextFrame (str_frames str) None)) as [f|e] eqn:Hf.
  2:{ left. exists e. apply doRequest_frame_error; assumption. }
  destruct (match f with headersFrame _ => true | _ => false end) eqn:Hh.
  2:{ right. left. apply doRequest_frame_unexpected with (f := f); try assumption.
      intros L ->. discriminate. }
  destruct f as [L|L|d o]; try discriminate.
  destruct (Z_lt_le_dec (maxHeaderBytes c) L) as [Hl|Hl].
  { left. eexists. apply doRequest_headers_too_large; eassumption. }
  right. right.
  destruct (str_ReadFull str L) as [headerBlock|e] eqn:Hr.
  2:{ left. exists L, e. split; [exact Hl|]. apply doRequest_read_fails; assumption. }
  right.
  destruct (decoder c headerBlock) as [hfs|e] eqn:Hd.
  2:{ left. exists L, e. split; [exact Hl|].
      apply doRequest_decode_fails with (headerBlock := headerBlock); assumption. }
  right.
  assert (Hdec : decodes c req str L hfs).
  { split; [exact Hw|]. split; [exact Hf|]. split; [exact Hl|]. eauto. }
  pose proof (doRequest_decoded c cn req str L hfs Hdec) as Hdo.
  destruct (readHeaderFields hfs _) as [res1|rerr] eqn:Hres.
  - right. exists L, hfs, res1. auto.
  - left. exists L. split; [exact Hl|].
    rewrite Hdo. apply readHeaderFields_error in Hres. subst. reflexivity.
Qed.


(** *** The response [doRequest] builds *)

Lemma bindBody_keeps gzip body res :
  let res' := bindBody gzip body res in
  res_Status res' = res_Status res /\ res_StatusCode res' = res_StatusCode res
  /\ res_Proto res' = res_Proto res /\ res_ProtoMajor res' = res_ProtoMajor res
  /\ res_TLS res' = res_TLS res.
Proof. unfold bindBody. destruct (gzip && _); cbn; auto. Qed.

Lemma resolveContentLength_keeps_status req res :
  let res' := resolveContentLength req res in
  res_Status res' = res_Status res /\ res_StatusCode res' = res_StatusCode res
  /\ res_Proto res' = res_Proto res /\ res_ProtoMajor res' = res_ProtoMajor res
  /\ res_TLS res' = res_TLS res.
Proof.
  unfold resolveContentLength.
  destruct (negb _ && negb _ && negb _ && negb _); [|auto].
  cbn [setContentLength res_Header].
  destruct (res_Header res !! "Content-Length") as [[|clen [|]]|]; cbn; auto.
  destruct (strconv.ParseInt clen); cbn; auto.
Qed.

Lemma lastStatus_cons hf rest :
  lastStatus (hf :: rest)
  = match lastStatus rest with
    | Some v => Some v
    | None => if String.eqb (Name hf) ":status" then Some (Value hf) else None
    end.
Proof.
  unfold lastStatus. destruct (String.eqb_spec (Name hf) ":status") as [E|E].
  - rewrite filter_cons_True by exact E. cbn [map]. rewrite last_cons.
    destruct (last _); reflexivity.
  - rewrite filter_cons_False by exact E. destruct (last _); reflexivity.
Qed.

Lemma readHeaderFields_status hfs : forall res res',
  readHeaderFields hfs res = inl res' ->
  res_Proto res' = res_Proto res /\ res_ProtoMajor res' = res_ProtoMajor res
  /\ res_TLS res' = res_TLS res
  /\ match lastStatus hfs with
     | None => res_StatusCode res' = res_StatusCode res
               /\ res_Status res' = res_Status res
     | Some v => exists status,
                   strconv.Atoi v = inl status
                   /\ res_StatusCode res' = status
                   /\ res_Status res' = v ++ " " ++ StatusText status
     end.
Proof.
  induction hfs as [|hf rest IH]; intros res res'.
  - cbn. intros [= <-]. auto.
  - cbn [readHeaderFields]. rewrite lastStatus_cons.
    destruct (String.eqb (Name hf) ":status").
    + destruct (strconv.Atoi (Value hf)) as [status|] eqn:Ea; [|discriminate].
      intros H. destruct (IH _ _ H) as (H1 & H2 & H3 & H4).
      cbn [setStatus res_Proto res_ProtoMajor res_TLS res_StatusCode res_Status] in *.
      repeat (split; [assumption|]).
      destruct (lastStatus rest); [exact H4|].
      destruct H4 as [-> ->]. eauto.
    + intros H. destruct (IH _ _ H) as (H1 & H2 & H3 & H4).
      cbn [setHeader res_Proto res_ProtoMajor res_TLS res_StatusCode res_Status] in *.
      repeat (split; [assumption|]).
      destruct (lastStatus rest); exact H4.
Qed.

(** X8. The response of a decoded header block is an HTTP/3 response with
    the TLS state of the connection.  Its status is that of the last
    [:status] field of the block: the code is the number the field parses
    to, the status line is the field, a space and the text of the code.  A
    block without a [:status] field gives the code 0 and an empty status
    line, and no error. *)
Theorem response_status c cn req str Length hfs :
  decodes c req str Length hfs ->
  statusesParse hfs ->
  exists res,
    result (doRequest c cn req str) = (Some res, noRequestError)
    /\ res_Proto res = "HTTP/3" /\ res_ProtoMajor res = 3
    /\ res_TLS res = cs_TLS (conn_ConnectionState cn)
    /\ match lastStatus hfs with
       | None => res_StatusCode res = 0 /\ res_Status res = ""
       | Some v => exists status,
                     strconv.Atoi v = inl status
                     /\ res_StatusCode res = status
                     /\ res_Status res = v ++ " " ++ StatusText status
       end.
Proof.
  intros Hdec Hst.
  destruct (doRequest_success c cn req str Length hfs Hdec Hst) as (res1 & Hres1 & Hdo).
  eexists. rewrite Hdo. split; [reflexivity|].
  destruct (bindBody_keeps (requestGzip c req) responseBody
              (resolveContentLength req res1)) as (-> & -> & -> & -> & ->).
  destruct (resolveContentLength_keeps_status req res1) as (-> & -> & -> & -> & ->).
  destruct (readHeaderFields_status _ _ _ Hres1) as (-> & -> & -> & H).
  repeat (split; [reflexivity|]). exact H.
Qed.

Lemma hd_headerValues key hfs :
  hd "" (headerValues key hfs)
  = match firstField key hfs with
    | Some hf => Value hf
    | None => ""
    end.
Proof.
  unfold headerValues, firstField.
  induction hfs as [|hf rest IH]; [reflexivity|].
  cbn [List.find].
  destruct (bool_decide_reflect
              (Name hf <> ":status" /\ textproto.CanonicalMIMEHeaderKey (Name hf) = key))
    as [Hp|Hp].
  - rewrite filter_cons_True by exact Hp. reflexivity.
  - rewrite filter_cons_False by exact Hp. exact IH.
Qed.

(** X9. Looking a header up in the response of a decoded block, with
    [Header.Get], gives the value of the first field of the block whose name
    has the canonical form of the key looked up, whatever the case of the
    letters in either, and the empty string when there is none.  The
    [:status] field is never found; Content-Encoding and Content-Length are
    not found either once the body is transparently decompressed. *)
Theorem response_header_get c cn req str Length hfs :
  decodes c req str Length hfs ->
  statusesParse hfs ->
  exists res,
    result (doRequest c cn req str) = (Some res, noRequestError)
    /\ forall key,
         let k := textproto.CanonicalMIMEHeaderKey key in
         http.Get (res_Header res) key
         = if requestGzip c req && gzipEncoded hfs
              && bool_decide (k = "Content-Encoding" \/ k = "Content-Length")
           then ""
           else match firstField k hfs with
                | Some hf => Value hf
                | None => ""
                end.
Proof.
  intros Hdec Hst.
  destruct (doRequest_success c cn req str Length hfs Hdec Hst) as (res1 & Hres1 & Hdo).
  eexists. rewrite Hdo. split; [reflexivity|].
  intros key k. unfold bindBody.
  rewrite (bindBody_gzip_test c req hfs _ res1 Hres1).
  destruct (resolveContentLength_keeps req res1) as (Hh & _ & _).
  assert (Hget : forall h : http.Header,
            http.Get h key = hd "" (default [] (h !! k))).
  { intros h. unfold http.Get. fold k. destruct (h !! k) as [[|v vs]|]; reflexivity. }
  rewrite Hget, <- hd_headerValues.
  destruct (requestGzip c req && gzipEncoded hfs); cbn [andb].
  - cbn [setBody setContentLength setHeader res_Header].
    rewrite unzipped_header_lookup, Hh, (readHeaderFields_header _ _ _ _ Hres1).
    destruct (bool_decide _); [reflexivity|].
    unfold headerOf. destruct (headerValues k hfs); reflexivity.
  - cbn [setBody res_Header].
    rewrite Hh, (readHeaderFields_header _ _ _ _ Hres1).
    unfold headerOf. destruct (headerValues k hfs); reflexivity.
Qed.

(** *** Integer ranges *)

Lemma isDigit_digitVal ch : strconv.isDigit ch = true -> 0 <= strconv.digitVal ch <= 9.
Proof. unfold strconv.isDigit, strconv.digitVal. lia. Qed.

Lemma parseUintLoop_range s : forall n m,
  0 <= n <= strconv.maxUint64 ->
  strconv.parseUintLoop n s = inl m ->
  0 <= m <= strconv.maxUint64.
Proof.
  induction s as [|ch rest IH]; intros n m Hn; cbn [strconv.parseUintLoop].
  - intros [= <-]. exact Hn.
  - destruct (strconv.isDigit ch) eqn:Ed; [|discriminate].
    destruct (n >=? _); [discriminate|].
    destruct (n * 10 + strconv.digitVal ch >? strconv.maxUint64) eqn:Eo; [discriminate|].
    apply IH. pose proof (isDigit_digitVal ch Ed). lia.
Qed.

Lemma ParseInt_range s n : strconv.ParseInt s = inl n -> int64 n.
Proof.
  unfold strconv.ParseInt, int64. destruct s as [|ch rest]; [discriminate|].
  destruct (strconv.ParseUint _) as [un|] eqn:Eu; [|discriminate].
  assert (Hun : 0 <= un <= strconv.maxUint64).
  { unfold strconv.ParseUint in Eu.
    destruct (if Ascii.eqb ch "+" || Ascii.eqb ch "-" then rest else String ch rest);
      [discriminate|].
    apply (parseUintLoop_range _ 0 un) in Eu; [exact Eu|].
    unfold strconv.maxUint64. lia. }
  destruct (Ascii.eqb ch "-"); cbn [negb andb].
  - destruct (un >? 2 ^ 63) eqn:E; [discriminate|]. intros [= <-]. lia.
  - destruct (un >=? 2 ^ 63) eqn:E; [discriminate|]. intros [= <-]. lia.
Qed.

Lemma readHeaderFields_int64 hfs : forall res res',
  readHeaderFields hfs res = inl res' ->
  int64 (res_StatusCode res) -> int64 (res_StatusCode res').
Proof.
  induction hfs as [|hf rest IH]; intros res res'; cbn [readHeaderFields].
  - intros [= <-]. auto.
  - destruct (String.eqb (Name hf) ":status").
    + destruct (strconv.Atoi (Value hf)) as [status|] eqn:Ea; [|discriminate].
      intros H _. apply (IH _ _ H). cbn. apply (ParseInt_range _ _ Ea).
    + intros H Hi. apply (IH _ _ H). exact Hi.
Qed.

Lemma resolveContentLength_int64 req res :
  int64 (res_ContentLength res) ->
  int64 (res_ContentLength (resolveContentLength req res)).
Proof.
  intros Hi. unfold resolveContentLength.
  destruct (negb _ && negb _ && negb _ && negb _); [|exact Hi].
  cbn [setContentLength res_Header].
  destruct (res_Header res !! "Content-Length") as [[|clen [|]]|];
    try (cbn; unfold int64; lia).
  destruct (strconv.ParseInt clen) eqn:E; [|cbn; unfold int64; lia].
  cbn. apply (ParseInt_range _ _ E).
Qed.

(** X10. Whatever the server sends, the status code and the content length
    of a response that [doRequest] returns are values of an int64: a status
    or a Content-Length out of that range is refused by the parser, and no
    arithmetic is done on them. *)
Theorem response_integers_in_range c cn req str res :
  fst (result (doRequest c cn req str)) = Some res ->
  int64 (res_StatusCode res) /\ int64 (res_ContentLength res).
Proof.
  destruct (doRequest_cases c cn req str)
    as [(e & ->) | [(e & ->) | [-> | [(L & e & _ & ->) | [(L & e & _ & ->)
        | [(L & _ & ->) | (L & hfs & res1 & _ & Hres1 & ->)]]]]]];
    cbn [result fst]; try discriminate.
  intros [= <-].
  destruct (bindBody_keeps (requestGzip c req) responseBody
              (resolveContentLength req res1)) as (_ & -> & _).
  destruct (resolveContentLength_keeps_status req res1) as (_ & -> & _).
  split.
  - apply (readHeaderFields_int64 _ _ _ Hres1). cbn. unfold int64. lia.
  - rewrite bindBody_ContentLength.
    destruct (_ && _); [unfold int64; lia|].
    apply resolveContentLength_int64.
    destruct (readHeaderFields_preserves _ _ _ Hres1) as (-> & _).
    cbn. unfold int64. lia.
Qed.

(** X11. The header byte budget is at least one byte and is itself an
    int64 value, also for a configured value that is zero or negative; so a
    HEADERS frame of length zero is never refused as too large: after the
    frame [doRequest] makes the empty buffer and reads into it. *)
Theorem empty_headers_frame_accepted c cn req str :
  int64 (MaxHeaderBytes (opts c)) ->
  str_WriteRequest str req (requestGzip c req) = None ->
  result (parseNextFrame (str_frames str) None) = inl (headersFrame 0) ->
  1 <= maxHeaderBytes c < 2 ^ 63
  /\ exists rest,
       trace (doRequest c cn req str)
       = (EvWriteRequest (req_Method req) (requestGzip c req) :: EvParseNextFrame
          :: EvMake 0 :: EvReadFull 0 :: rest).
Proof.
  intros Hi Hw Hf.
  assert (Hb : 1 <= maxHeaderBytes c < 2 ^ 63).
  { unfold int64 in Hi. destruct (Z_le_gt_dec (MaxHeaderBytes (opts c)) 0).
    - rewrite maxHeaderBytes_default by assumption. lia.
    - rewrite maxHeaderBytes_configured by lia. lia. }
  split; [exact Hb|].
  unfold doRequest. rewrite Hw, (parseNextFrame_nil_eq _ _ Hf).
  assert (Hgt : (0 >? maxHeaderBytes c) = false) by lia.
  unfold bind, emit, ret. rewrite Hgt.
  destruct (str_ReadFull str 0); [|cbn; eauto].
  destruct (decoder c _); [|cbn; eauto].
  destruct (readHeaderFields _ _); cbn; eauto.
Qed.

(** *** Unidirectional streams: the remaining cases *)

Lemma parseNextFrame_trace_cases r handler :
  trace (parseNextFrame r handler) = [EvParseNextFrame]
  \/ exists ft, trace (parseNextFrame r handler)
                = [EvParseNextFrame; EvUnknownFrameHandler ft].
Proof.
  destruct r as [f | e | ft perr]; [left; reflexivity ..|].
  destruct handler as [h|]; [|left; reflexivity].
  right. exists ft. unfold parseNextFrame. run.
  destruct (fst (h ft)); reflexivity.
Qed.

(** X12. An unknown frame on the control stream: with a
    [UniStreamHijacker] the hijacker is asked once, for the type of that
    frame; if it takes the stream over the client does nothing more with the
    stream and leaves the connection open; if it declines, or if there is no
    hijacker, the connection is closed with "frame error". *)
Theorem control_stream_unknown_frame c cn str ft protocolError :
  rstr_streamType str = inl streamTypeControlStream ->
  rstr_frames str = inputUnknown ft protocolError ->
  isHijacked protocolError = false ->
  trace (handleUniStream c cn str)
  = match UniStreamHijacker (opts c) with
    | Some hijacker =>
        EvReadStreamType :: EvParseNextFrame :: EvUnknownFrameHandler ft
        :: (if fst (hijacker ft) then [] else [EvCloseWithError errorFrameError ""])
    | None => [EvReadStreamType; EvParseNextFrame; EvCloseWithError errorFrameError ""]
    end.
Proof.
  intros Htype Hframes Hperr.
  unfold handleUniStream. rewrite trace_bind, trace_emit, Htype.
  cbn [result emit fst]. rewrite Z.eqb_refl, handleControlStream_trace, Hframes.
  unfold ufh, parseNextFrame. destruct (UniStreamHijacker (opts c)) as [h|]; run.
  - destruct (fst (h ft)); run; cbn; [reflexivity|]. rewrite Hperr. reflexivity.
  - cbn. rewrite Hperr. reflexivity.
Qed.

Lemma closes_app t1 t2 : closes (t1 ++ t2) = (closes t1 ++ closes t2)%list.
Proof. unfold closes. apply omap_app. Qed.

Lemma closes_parseNextFrame r handler : closes (trace (parseNextFrame r handler)) = [].
Proof.
  destruct (parseNextFrame_trace_cases r handler) as [-> | [ft ->]]; reflexivity.
Qed.

Lemma handleUniStream_closes c cn str :
  let t := trace (handleUniStream c cn str) in
  (length (closes t) <= 1)%nat
  /\ (forall cr, In cr (closes t) ->
        In cr [(errorIDError, ""); (errorFrameError, ""); (errorMissingSettings, "");
               (errorSettingsError, "missing QUIC Datagram support")])
  /\ (forall code, In (EvCancelRead code) t ->
        code = errorStreamCreationError /\ closes t = [])
  /\ (forall code, ~ In (EvCancelWrite code) t).
Proof.
  cbv zeta. unfold handleUniStream.
  rewrite trace_bind, trace_emit. cbn [result emit fst].
  destruct (rstr_streamType str) as [streamType|e].
  2:{ cbn. repeat split; try lia; intros; intuition discriminate. }
  destruct (streamType =? streamTypeControlStream).
  2:{ destruct (_ || _);
        [|destruct (streamType =? streamTypePushStream)];
        cbn; repeat split; try lia; intros; intuition (try discriminate; congruence). }
  rewrite handleControlStream_trace.
  destruct (parseNextFrame_trace_cases (rstr_frames str) (ufh c)) as [-> | [ft ->]];
    destruct (result (parseNextFrame _ _)) as [[L|L|d o]|e];
    try destruct (d && EnableDatagram (opts c));
    try destruct (cs_SupportsDatagrams _);
    try destruct (isHijacked e);
    cbn; repeat split; try lia; intros; intuition (try discriminate; congruence).
Qed.

(** X13. The goroutines of [handleUnidirectionalStreams], one for each
    accepted stream, each close the connection at most once, and only with
    "id error", "frame error", "missing settings" or "settings error"; a
    goroutine that cancels the read side of its stream does so with "stream
    creation error" and does not close the connection; none cancels a write
    side. *)
Theorem uni_streams_close_at_most_once c cn :
  length (handleUnidirectionalStreams c cn) = length (conn_AcceptUniStream cn)
  /\ Forall (fun t =>
       (length (closes t) <= 1)%nat
       /\ (forall cr, In cr (closes t) ->
             In cr [(errorIDError, ""); (errorFrameError, "");
                    (errorMissingSettings, "");
                    (errorSettingsError, "missing QUIC Datagram support")])
       /\ (forall code, In (EvCancelRead code) t ->
             code = errorStreamCreationError /\ closes t = [])
       /\ (forall code, ~ In (EvCancelWrite code) t))
     (handleUnidirectionalStreams c cn).
Proof.
  unfold handleUnidirectionalStreams. split; [apply length_map|].
  apply Forall_map, Forall_forall. intros str _.
  apply (handleUniStream_closes c cn str).
Qed.

(** *** Bidirectional streams *)

Lemma handleBidiStream_loop hijacker reads fuel : forall i,
  let r := handleBidiStream hijacker reads i fuel in
  let close := (errorFrameUnexpected, "received HTTP/3 frame on bidirectional stream") in
  match List.find (hijackedAt hijacker reads) (seq i fuel) with
  | Some k => result r = true
              /\ closes (trace r) = repeat close (k - i)
              /\ frameReads (trace r) = S (k - i)
  | None => result r = false
            /\ closes (trace r) = repeat close fuel
            /\ frameReads (trace r) = fuel
  end.
Proof.
  induction fuel as [|fuel IH]; intros i; cbv zeta; [cbn; auto|].
  cbn [seq List.find handleBidiStream].
  rewrite result_bind, trace_bind, closes_app, frameReads_app,
    closes_parseNextFrame, frameReads_parseNextFrame.
  unfold hijackedAt at 1.
  destruct (match result (parseNextFrame (reads i) _) with
            | inl _ => false
            | inr e => isHijacked e
            end).
  - rewrite Nat.sub_diag. cbn. auto.
  - run. specialize (IH (S i)). cbv zeta in IH.
    rewrite closes_app, frameReads_app.
    destruct (List.find _ (seq (S i) fuel)) as [k|] eqn:Ef.
    + destruct IH as (-> & -> & ->).
      apply find_some in Ef. destruct Ef as [Hin _].
      apply in_seq in Hin.
      replace (k - i)%nat with (S (k - S i)) by lia.
      cbn. auto.
    + destruct IH as (-> & -> & ->). cbn. auto.
Qed.

(** X14. The goroutine of a bidirectional stream leaves its loop only at
    a read that the hijacker takes over.  Every read before that one is
    followed by closing the connection with "frame unexpected"; if none of
    the first [fuel] reads is taken over, the goroutine has closed the
    connection [fuel] times and is still in the loop. *)
Theorem bidi_stream_loop hijacker reads fuel :
  let r := handleBidiStream hijacker reads 0 fuel in
  let close := (errorFrameUnexpected, "received HTTP/3 frame on bidirectional stream") in
  match List.find (hijackedAt hijacker reads) (seq 0 fuel) with
  | Some k => result r = true
              /\ closes (trace r) = repeat close k
              /\ frameReads (trace r) = S k
  | None => result r = false
            /\ closes (trace r) = repeat close fuel
            /\ frameReads (trace r) = fuel
  end.
Proof.
  pose proof (handleBidiStream_loop hijacker reads fuel 0%nat) as H. cbv zeta in *.
  destruct (List.find _ _); [|exact H].
  rewrite Nat.sub_0_r in H. exact H.
Qed.

(** *** [newClient] *)

(** X15. [newClient] fails exactly when the caller's configuration lists
    two QUIC versions or more; without a configuration, or with one that
    lists no version, the default version is used. *)
Theorem newClient_fails_iff host tlsConf0 opts0 conf0 dialer0 :
  (exists e, newClient host tlsConf0 opts0 conf0 dialer0 = inr e)
  <-> exists cf, conf0 = Some cf /\ (2 <= length (Versions cf))%nat.
Proof.
  unfold newClient. destruct conf0 as [cf|].
  - destruct (Versions cf) as [|v [|v' vs]] eqn:Ev; cbn; rewrite ?Ev; cbn; split.
    + intros [e H]. discriminate.
    + intros (cf' & [= <-] & H). rewrite Ev in H. cbn in H. lia.
    + intros [e H]. discriminate.
    + intros (cf' & [= <-] & H). rewrite Ev in H. cbn in H. lia.
    + intros _. exists cf. rewrite Ev. cbn. split; [reflexivity | lia].
    + intros _. eauto.
  - cbn. split.
    + intros [e H]. discriminate.
    + intros (cf & H & _). discriminate.
Qed.

(** X16. The client [newClient] returns has exactly one QUIC version, the
    caller's or else the default one, and offers the ALPN of that version
    alone; its [MaxIncomingStreams] is never 0 (-1 stands in for 0); its
    [EnableDatagrams] is the [EnableDatagram] of the options, whatever the
    caller's configuration says; it has not dialed and has no connection. *)
Theorem newClient_result host tlsConf0 opts0 conf0 dialer0 c :
  newClient host tlsConf0 opts0 conf0 dialer0 = inl c ->
  (exists v,
     Versions (config c) = [v]
     /\ NextProtos (tlsConf c) = [versionToALPN v]
     /\ v = match conf0 with
            | Some cf => hd VersionTLS (Versions cf)
            | None => VersionTLS
            end)
  /\ MaxIncomingStreams (config c) <> 0
  /\ MaxIncomingStreams (config c)
     = match conf0 with
       | Some cf => if MaxIncomingStreams cf =? 0 then -1 else MaxIncomingStreams cf
       | None => -1
       end
  /\ EnableDatagrams (config c) = EnableDatagram opts0
  /\ hostname c = authorityAddr "https" host
  /\ dialOnce c = false /\ handshakeErr c = None /\ conn c = None.
Proof.
  unfold newClient. destruct conf0 as [cf|].
  - destruct (Versions cf) as [|v [|v' vs]] eqn:Ev; cbn; rewrite ?Ev; cbn;
      try discriminate; intros [= <-]; cbn; rewrite ?Ev; cbn.
    + split; [eauto|]. destruct (MaxIncomingStreams cf =? 0) eqn:E; repeat split; lia.
    + split; [eauto|]. destruct (MaxIncomingStreams cf =? 0) eqn:E; repeat split; lia.
  - cbn. intros [= <-]. cbn. split; [eauto|]. repeat split; lia.
Qed.

(** *** The goroutine for bidirectional streams *)

(** X17. [RoundTrip] starts the loop that accepts bidirectional streams
    exactly when it dials, the dial succeeds and a [StreamHijacker] is
    configured: without a hijacker no bidirectional stream of the server is
    ever accepted. *)
Theorem bidi_loop_started_iff c req :
  In (EvGo goHandleBidirectionalStreams) (trace (RoundTrip c req))
  <-> forClient c req
      /\ dialOnce c = false
      /\ (exists cn, dialAnswer c = inl cn)
      /\ is_Some (StreamHijacker (opts c)).
Proof.
  assert (Hdial : In (EvGo goHandleBidirectionalStreams) (trace (dialOnceDo c))
                  <-> dialOnce c = false /\ (exists cn, dialAnswer c = inl cn)
                      /\ is_Some (StreamHijacker (opts c))).
  { unfold dialOnceDo. destruct (dialOnce c).
    - cbn. split; [intros [] | intros (H & _); discriminate].
    - rewrite trace_bind, trace_ret, app_nil_r, dial_eq.
      destruct (dialAnswer c) as [cn|e].
      + cbn [trace snd].
        destruct (bool_decide_reflect (is_Some (StreamHijacker (opts c)))) as [Hh|Hh].
        * split; [eauto 6|]. intros _. cbn. auto.
        * split.
          -- cbn. intros [H | [H | [H | []]]]; discriminate.
          -- intros (_ & _ & H). contradiction.
      + cbn. split.
        * intros [H | []]. discriminate.
        * intros (_ & [cn H] & _). discriminate. }
  assert (Hrest : forall t,
    In (EvGo goHandleBidirectionalStreams)
       (trace (dialOnceDo c)
        ++ (if String.eqb (req_Method req) MethodGet0RTT then []
            else [EvSelectHandshakeOrContext]) ++ t) ->
    ~ In (EvGo goHandleBidirectionalStreams) t ->
    In (EvGo goHandleBidirectionalStreams) (trace (dialOnceDo c))).
  { intros t Hin Ht. apply in_app_or in Hin. destruct Hin as [Hin | Hin]; [exact Hin|].
    apply in_app_or in Hin. destruct Hin as [Hin | Hin]; [|contradiction].
    destruct (String.eqb _ _); [destruct Hin|].
    destruct Hin as [Hin | []]. discriminate. }
  rewrite RoundTrip_paths. cbv zeta. unfold forClient.
  destruct (String.eqb_spec (authorityAddr "https" (hostnameFromRequest req)) (hostname c))
    as [Eh|Eh]; cbn [negb].
  2:{ cbn. split; [intros [] | intros (H & _); contradiction]. }
  assert (Hiff : forall t,
    (In (EvGo goHandleBidirectionalStreams) t ->
     In (EvGo goHandleBidirectionalStreams) (trace (dialOnceDo c))) ->
    (In (EvGo goHandleBidirectionalStreams) (trace (dialOnceDo c)) ->
     In (EvGo goHandleBidirectionalStreams) t) ->
    In (EvGo goHandleBidirectionalStreams) t
    <-> authorityAddr "https" (hostnameFromRequest req) = hostname c
        /\ dialOnce c = false /\ (exists cn, dialAnswer c = inl cn)
        /\ is_Some (StreamHijacker (opts c))).
  { intros t H1 H2. rewrite <- Hdial. tauto. }
  destruct (handshakeErr _); [apply Hiff; auto|].
  destruct (conn _) as [cn|]; [|apply Hiff; auto].
  destruct (negb _ && _).
  { cbn [trace snd]. apply Hiff.
    - intros Hin. apply (Hrest []); [rewrite app_nil_r; exact Hin | intros []].
    - intros Hin. apply in_or_app. left. exact Hin. }
  destruct (conn_OpenStreamSync cn) as [str|e]; cbn [trace snd]; apply Hiff.
  - intros Hin. apply (Hrest _ Hin). intros Hin'. cbn [app] in Hin'.
    destruct Hin' as [H | [H | Hin']]; try discriminate.
    apply in_app_or in Hin'. destruct Hin' as [Hin' | Hin'].
    + revert Hin'. apply (not_in_by_kind isExchangeEvent);
        [apply doRequest_events | reflexivity].
    + revert Hin'. apply (not_in_by_kind isCleanup);
        [apply cleanup_events | reflexivity].
  - intros Hin. apply in_or_app. left. exact Hin.
  - intros Hin. apply (Hrest _ Hin). intros [H | []]. discriminate.
  - intros Hin. apply in_or_app. left. exact Hin.
Qed.

End RestProofs.

(** ** The rest of [client.go] on concrete data *)

Lemma dial_failure_is_remembered_witness :
  let c1 := fst (result (RoundTrip (P := rfc9114) exFailingClient (exRequest "GET"))) in
  RoundTrip (P := rfc9114) exFailingClient (exRequest "GET")
  = ((c1, Returns (None, Some (errorString "no route to host"))),
     [EvDial "example.org:443"])
  /\ RoundTrip (P := rfc9114) c1 (exRequest "HEAD")
     = ((c1, Returns (None, Some (errorString "no route to host"))), []).
Proof.
  destruct (@dial_failure_is_remembered rfc9114 exFailingClient (exRequest "GET")
              (errorString "no route to host") eq_refl eq_refl eq_refl)
    as (Hfirst & Hlater & _).
  split; [exact Hfirst|]. apply Hlater. reflexivity.
Defined.

Lemma wellFormed_invariant_witness :
  wellFormed (result (roundTrips (P := rfc9114)
                        (exClient exOpts exHeadersConn (inl []))
                        [exRequest "GET"; exRequest "HEAD"])).
Proof.
  refine (proj1 (@wellFormed_invariant rfc9114
                   (exClient exOpts exHeadersConn (inl []))
                   [exRequest "GET"; exRequest "HEAD"]
                   "example.org:443" None exOpts None None _)).
  intros H. discriminate.
Defined.


Lemma RoundTrip_cleans_up_only_after_failure_witness :
  let str := exStream (inputFrame (dataFrame 5)) in
  In EvCloseReqDone
    (trace (RoundTrip (P := rfc9114) (exClient exOpts (exConn str) (inl []))
              (exRequest "GET"))).
Proof.
  intros str.
  refine (proj2 (proj2 (@RoundTrip_cleans_up_only_after_failure rfc9114
            (exClient exOpts (exConn str) (inl [])) (exRequest "GET")
            (EvCloseWithError 0x105 "expected first frame to be a HEADERS frame") _ _))).
  - vm_compute. do 9 right. left. reflexivity.
  - reflexivity.
Defined.

Lemma response_status_witness :
  exists res,
    result (exExchange "GET"
              [mkHeaderField ":status" "200"; mkHeaderField "server" "x";
               mkHeaderField ":status" "204"])
    = (Some res, noRequestError)
    /\ res_StatusCode res = 204.
Proof.
  pose (hfs := [mkHeaderField ":status" "200"; mkHeaderField "server" "x";
                mkHeaderField ":status" "204"]).
  destruct (@response_status rfc9114
              (exDialed exOpts exHeadersConn (inl hfs)) exHeadersConn
              (exRequest "GET") exHeadersStream 0 hfs)
    as (res & Hres & _ & _ & _ & Hlast).
  - apply decodes_example.
  - intros hf [<- | [<- | [<- | []]]]; try discriminate; intros _;
      [exists 200 | exists 204]; reflexivity.
  - exists res. split; [exact Hres|].
    change (lastStatus hfs) with (Some "204") in Hlast.
    destruct Hlast as (status & Hparse & Hcode & _).
    rewrite Hcode. vm_compute in Hparse. injection Hparse as <-. reflexivity.
Defined.

Lemma response_header_get_witness :
  exists res,
    result (exExchange "GET"
              [mkHeaderField ":status" "200"; mkHeaderField "Content-Type" "text/html";
               mkHeaderField "content-type" "text/plain"])
    = (Some res, noRequestError)
    /\ http.Get (res_Header res) "CONTENT-TYPE" = "text/html"
    /\ http.Get (res_Header res) ":status" = "".
Proof.
  pose (hfs := [mkHeaderField ":status" "200"; mkHeaderField "Content-Type" "text/html";
                mkHeaderField "content-type" "text/plain"]).
  destruct (@response_header_get rfc9114
              (exDialed exOpts exHeadersConn (inl hfs)) exHeadersConn
              (exRequest "GET") exHeadersStream 0 hfs)
    as (res & Hres & Hget).
  - apply decodes_example.
  - intros hf [<- | [<- | [<- | []]]]; try discriminate.
    intros _. exists 200. reflexivity.
  - exists res. split; [exact Hres|].
    split; rewrite Hget; vm_compute; reflexivity.
Defined.

Lemma response_integers_in_range_witness :
  match fst (result (exExchange "GET"
                       [mkHeaderField ":status" "200";
                        mkHeaderField "content-length" "9223372036854775807"])) with
  | Some res => int64 (res_StatusCode res) /\ int64 (res_ContentLength res)
  | None => False
  end.
Proof.
  unfold exExchange.
  destruct (fst (result (doRequest _ _ _ _))) as [res|] eqn:E.
  - exact (@response_integers_in_range rfc9114 _ _ _ _ res E).
  - vm_compute in E. discriminate.
Defined.

Lemma empty_headers_frame_accepted_witness :
  1 <= maxHeaderBytes (exDialed exOpts exHeadersConn (inl [])) < 2 ^ 63.
Proof.
  refine (proj1 (@empty_headers_frame_accepted rfc9114
                   (exDialed exOpts exHeadersConn (inl [])) exHeadersConn
                   (exRequest "GET") exHeadersStream _ _ _)).
  - vm_compute. split; [discriminate | reflexivity].
  - reflexivity.
  - reflexivity.
Defined.

Lemma control_stream_unknown_frame_witness :
  trace (handleUniStream (P := rfc9114) (exDialed exHijackOpts exHeadersConn (inl []))
           exHeadersConn
           (exUniStream 0 (inputUnknown 0x40 (errorString "unknown frame"))))
  = [EvReadStreamType; EvParseNextFrame; EvUnknownFrameHandler 0x40]
  /\
  trace (handleUniStream (P := rfc9114) (exDialed exOpts exHeadersConn (inl []))
           exHeadersConn
           (exUniStream 0 (inputUnknown 0x40 (errorString "unknown frame"))))
  = [EvReadStreamType; EvParseNextFrame; EvCloseWithError 0x106 ""].
Proof.
  split.
  - refine (@control_stream_unknown_frame rfc9114
              (exDialed exHijackOpts exHeadersConn (inl [])) exHeadersConn
              (exUniStream 0 (inputUnknown 0x40 (errorString "unknown frame")))
              0x40 (errorString "unknown frame") _ _ _); reflexivity.
  - refine (@control_stream_unknown_frame rfc9114
              (exDialed exOpts exHeadersConn (inl [])) exHeadersConn
              (exUniStream 0 (inputUnknown 0x40 (errorString "unknown frame")))
              0x40 (errorString "unknown frame") _ _ _); reflexivity.
Defined.

Lemma newClient_result_witness :
  match newClient (P := rfc9114) "example.org:443" None exOpts
          (Some {| Versions := []; MaxIncomingStreams := 0; KeepAlive := false;
                   EnableDatagrams := false |}) None with
  | inl c => MaxIncomingStreams (config c) <> 0
             /\ EnableDatagrams (config c) = true
             /\ conn c = None
  | inr _ => False
  end.
Proof.
  destruct (newClient _ _ _ _ _) as [c|e] eqn:E.
  - destruct (@newClient_result rfc9114 _ _ _ _ _ c E)
      as (_ & Hmax & _ & Hdg & _ & _ & _ & Hconn).
    split; [exact Hmax|]. split; [exact Hdg | exact Hconn].
  - vm_compute in E. discriminate.
Defined.

(** *** More scenarios *)

Example scenario_bidi_stream_hijacked_at_third_read :
  let reads := fun i : nat =>
    if (i <? 2)%nat then inputFrame (dataFrame 1)
    else inputUnknown 0x41 (errorString "unknown frame") in
  handleBidiStream (P := rfc9114) (fun _ => (true, None)) reads 0 10
  = (true,
     [EvParseNextFrame;
      EvCloseWithError 0x105 "received HTTP/3 frame on bidirectional stream";
      EvParseNextFrame;
      EvCloseWithError 0x105 "received HTTP/3 frame on bidirectional stream";
      EvParseNextFrame; EvUnknownFrameHandler 0x41]).
Proof. vm_compute. reflexivity. Qed.

Example scenario_two_requests_one_dial :
  dials (trace (roundTrips (P := rfc9114)
                  (exClient exOpts exHeadersConn (inl []))
                  [exRequest "GET"; exRequest "GET"; exRequest "HEAD"]))
  = 1%nat.
Proof. vm_compute. reflexivity. Qed.
